(** * Capability checks and URL planning of the sunpy dataretriever clients

    A shallow embedding of
      - [sunpy/net/dataretriever/sources/eve.py]        (EVEClient),
      - [sunpy/net/dataretriever/sources/fermi_gbm.py]  (GBMClient),
      - [sunpy/net/dataretriever/sources/goes.py]       (XRSClient, SUVIClient),
    together with the properties stated about them.

    Conventions of the embedding.
      - A Python [str] is a [string]; only ASCII is interpreted
        ([str.lower] folds A-Z, decimal digits are 0-9, the white space
        around a numeral is TAB, LF, VT, FF, CR and SPACE); other bytes
        are opaque.
      - A Python [int] is a [Z]; [bool] is the [int] it subclasses.
      - A Python [float] is a [spec_float] (IEEE 754 binary64 datum).
      - Exceptions are values of [Exn] carried by the [Result] monad;
        the message text of an exception is not modelled.
      - A query is the tuple [*query], a [list Attr]; each attribute is an
        instance of exactly one attribute class, its [attr_type]. *)

From Stdlib Require Import ZArith QArith String Ascii List Bool Lia.
From Stdlib Require Import DecimalString Floats.SpecFloat.
From stdpp Require Import base gmap sets list strings.

Local Open Scope Z_scope.
Local Open Scope string_scope.

(** ** Python strings *)

Module PyStr.

Definition is_upper (c : ascii) : bool :=
  let n := N_of_ascii c in (65 <=? n)%N && (n <=? 90)%N.

Definition is_digit (c : ascii) : bool :=
  let n := N_of_ascii c in (48 <=? n)%N && (n <=? 57)%N.

(** The white space that [int] skips around a numeral in a [str] of
    ASCII characters: TAB, LF, VT, FF, CR and SPACE. *)
Definition is_space (c : ascii) : bool :=
  let n := N_of_ascii c in
  ((9 <=? n)%N && (n <=? 13)%N) || (n =? 32)%N.

Definition lower_ascii (c : ascii) : ascii :=
  if is_upper c then ascii_of_N (N_of_ascii c + 32) else c.

(** [s.lower()] *)
Fixpoint lower (s : string) : string :=
  match s with
  | EmptyString => EmptyString
  | String c s' => String (lower_ascii c) (lower s')
  end.

Definition digit_value (c : ascii) : Z := Z.of_N (N_of_ascii c) - 48.

Fixpoint lstrip (l : list ascii) : list ascii :=
  match l with
  | c :: l' => if is_space c then lstrip l' else l
  | [] => []
  end.

(** [s.strip()] on the list of characters *)
Definition strip (l : list ascii) : list ascii :=
  rev (lstrip (rev (lstrip l))).

(** Decimal digits with single underscores between digits, as accepted
    by [int(str)]; [prev] tells whether the previous character was a
    digit. *)
Fixpoint parse_digits (acc : Z) (prev : bool) (l : list ascii) : option Z :=
  match l with
  | [] => if prev then Some acc else None
  | c :: l' =>
      if is_digit c then parse_digits (10 * acc + digit_value c) true l'
      else if Ascii.eqb c "_"
           then (if prev then parse_digits acc false l' else None)
           else None
  end.

(** [sub in s] as a prefix test at the head of [s] *)
Fixpoint startswith (sub s : string) : bool :=
  match sub, s with
  | EmptyString, _ => true
  | String a sub', String b s' => Ascii.eqb a b && startswith sub' s'
  | String _ _, EmptyString => false
  end.

(** [s.count(sub)] for a non-empty [sub]: the number of non-overlapping
    occurrences, scanning from the left.  [skip] is the number of
    characters of the last occurrence still to be passed over. *)
Fixpoint count_from (sub : string) (skip : nat) (s : string) : nat :=
  match s with
  | EmptyString => 0%nat
  | String _ s' =>
      match skip with
      | S k => count_from sub k s'
      | O => if startswith sub s
             then S (count_from sub (String.length sub - 1) s')
             else count_from sub 0 s'
      end
  end.

Definition count (s sub : string) : nat := count_from sub 0 s.

(** [str(n)] for an [int] *)
Definition of_int (z : Z) : string :=
  DecimalString.NilZero.string_of_int (Z.to_int z).

(** [format(n, "0w")]: sign-aware zero padding of an [int] to width [w] *)
Fixpoint zeros (n : nat) : string :=
  match n with O => EmptyString | S n' => String "0" (zeros n') end.

Definition of_int_zero_padded (width : nat) (z : Z) : string :=
  let digits := DecimalString.NilZero.string_of_uint (N.to_uint (Z.to_N (Z.abs z))) in
  let sign := if (z <? 0)%Z then "-" else "" in
  let used := (String.length sign + String.length digits)%nat in
  sign ++ zeros (width - used) ++ digits.

End PyStr.

(** ** Exceptions and results *)

Inductive Exn : Type :=
| ValueError
| KeyError
| UnboundLocalError
| PatternError.

Inductive Result (A : Type) : Type :=
| Ok (a : A)
| Raise (e : Exn).

Arguments Ok {A} a.
Arguments Raise {A} e.

#[global] Instance Exn_eq_dec : EqDecision Exn.
Proof. solve_decision. Defined.

#[global] Instance Result_ret : MRet Result := fun _ a => Ok a.

#[global] Instance Result_bind : MBind Result := fun _ _ f m =>
  match m with
  | Ok a => f a
  | Raise e => Raise e
  end.

#[global] Instance Result_fmap : FMap Result := fun _ _ f m =>
  match m with
  | Ok a => Ok (f a)
  | Raise e => Raise e
  end.

(** [try: body  except exc: handler] *)
Definition try_except {A} (body : Result A) (exc : Exn) (handler : Result A)
  : Result A :=
  match body with
  | Ok a => Ok a
  | Raise e => if decide (e = exc) then handler else Raise e
  end.

(** [for x in l: s = body(s, x)], stopping at the first exception *)
Fixpoint for_each {S A} (body : S -> A -> Result S) (l : list A) (s : S)
  : Result S :=
  match l with
  | [] => mret s
  | x :: l' => s' ← body s x; for_each body l' s'
  end.

(** ** Python values carried by attributes *)

Inductive PyVal : Type :=
| VStr (s : string)
| VInt (z : Z)
| VFloat (f : spec_float)
| VNone.

Module Py.

(** The integer that [int(s)] returns for a [str] of ASCII characters:
    surrounding white space, an optional sign, then decimal digits with
    single underscores between them; [None] where [int(s)] raises
    [ValueError].  What [int] does beyond that (the decimal digits and
    the white space of Unicode in a [str] with other characters, a limit
    on the number of digits in some interpreters) is not part of this
    definition; the statements about Level strings take the reading of
    numerals as a parameter. *)
Definition int_value (s : string) : option Z :=
  let body := PyStr.strip (list_ascii_of_string s) in
  match body with
  | c :: rest =>
      if Ascii.eqb c "-" then Z.opp <$> PyStr.parse_digits 0 false rest
      else if Ascii.eqb c "+" then PyStr.parse_digits 0 false rest
      else PyStr.parse_digits 0 false body
  | [] => None
  end.

(** [int(s)] for a [str], given the reading [read] of numerals: the
    integer read, or [ValueError]. *)
Definition int_with (read : string -> option Z) (s : string) : Result Z :=
  match read s with
  | Some z => Ok z
  | None => Raise ValueError
  end.

Definition int_of_str (s : string) : Result Z := int_with int_value s.

(** [v != 0] *)
Definition ne_zero (v : PyVal) : bool :=
  match v with
  | VStr _ => true
  | VInt z => negb (z =? 0)%Z
  | VFloat (S754_zero _) => false
  | VFloat _ => true
  | VNone => true
  end.

(** [0.5] as a binary64 datum: [2^52 * 2^-53] *)
Definition half : spec_float := S754_finite false 4503599627370496 (-53).

End Py.

(** ** Query attributes *)

(** The attribute classes of [sunpy.net.attrs] that occur in the clients,
    their tests and their value tables. *)
Inductive AttrType : Type :=
| TTime | TInstrument | TLevel | TDetector | TResolution
| TWavelength | TSatelliteNumber | TSource | TPhysobs.

#[global] Instance AttrType_eq_dec : EqDecision AttrType.
Proof. solve_decision. Defined.

Definition AttrType_to_nat (k : AttrType) : nat :=
  match k with
  | TTime => 0 | TInstrument => 1 | TLevel => 2 | TDetector => 3
  | TResolution => 4 | TWavelength => 5 | TSatelliteNumber => 6
  | TSource => 7 | TPhysobs => 8
  end%nat.

Definition AttrType_of_nat (n : nat) : AttrType :=
  match n with
  | 0 => TTime | 1 => TInstrument | 2 => TLevel | 3 => TDetector
  | 4 => TResolution | 5 => TWavelength | 6 => TSatelliteNumber
  | 7 => TSource | _ => TPhysobs
  end%nat.

#[global] Instance AttrType_countable : Countable AttrType.
Proof.
  refine (inj_countable' AttrType_to_nat AttrType_of_nat _).
  intros []; reflexivity.
Defined.

(** [cls.__name__] *)
Definition class_name (k : AttrType) : string :=
  match k with
  | TTime => "Time"
  | TInstrument => "Instrument"
  | TLevel => "Level"
  | TDetector => "Detector"
  | TResolution => "Resolution"
  | TWavelength => "Wavelength"
  | TSatelliteNumber => "SatelliteNumber"
  | TSource => "Source"
  | TPhysobs => "Physobs"
  end.

(** A time instant is a count of seconds; a wavelength is its value in
    Angstrom. *)
Inductive Attr : Type :=
| Time (start end_ : Z)
| Instrument (value : string)
| Level (value : PyVal)
| Detector (value : string)
| Resolution (value : string)
| Wavelength (wavemin wavemax : Q)
| SatelliteNumber (value : Z)
| Source (value : string)
| Physobs (value : string).

(** [type(x)] *)
Definition attr_type (x : Attr) : AttrType :=
  match x with
  | Time _ _ => TTime
  | Instrument _ => TInstrument
  | Level _ => TLevel
  | Detector _ => TDetector
  | Resolution _ => TResolution
  | Wavelength _ _ => TWavelength
  | SatelliteNumber _ => TSatelliteNumber
  | Source _ => TSource
  | Physobs _ => TPhysobs
  end.

(** [isinstance(x, cls)] *)
Definition isinstance (x : Attr) (cls : AttrType) : bool :=
  bool_decide (attr_type x = cls).

Module GenericClient.

(** Modelled from the spec: [GenericClient.check_attr_types_in_query]
    of [sunpy/net/dataretriever/client.py], which is not among the
    sources.  Following section 4.4, steps 1 and 2: the query is
    rejected if an attribute kind present in it is neither required nor
    optional, and if a required kind is absent from it. *)
Definition check_attr_types_in_query
    (query : list Attr) (required optional : gset AttrType) : bool :=
  let query_attrs : gset AttrType := list_to_set (attr_type <$> query) in
  bool_decide (required ⊆ query_attrs)
  && bool_decide (query_attrs ⊆ required ∪ optional).

End GenericClient.

(** ** [eve.py] *)

Module EVEClient.

Definition baseurl : string :=
  "http://lasp.colorado.edu/eve/data_access/evewebdata/quicklook/"
  ++ "L0CS/SpWx/%Y/%Y%m%d_EVE_L0CS_DIODES_1m.txt".
Definition extractor : string :=
  "http://lasp.colorado.edu/eve/data_access/evewebdata/quicklook/L0CS/SpWx/"
  ++ "{}/{:8d}_EVE_L{Level:w}_DIODES_1m.txt".

Definition required : gset AttrType := {[TTime; TInstrument; TLevel]}.
Definition optional : gset AttrType := ∅.

Section Builtin.

(** The builtin [int] on a [str]: the integer it returns, [None] when it
    raises [ValueError]. *)
Variable int_value : string -> option Z.

(** The body of [for x in query:], with the local [matches] threaded
    through. *)
Definition loop_body_with (matches : bool) (x : Attr) : Result bool :=
  let matches :=
    match x with
    | Instrument value =>
        if negb (String.eqb (PyStr.lower value) "eve") then false else matches
    | _ => matches
    end in
  match x with
  | Level value =>
      '(value, matches) ←
        match value with
        | VStr s =>
            if String.eqb (PyStr.lower s) "0cs" then mret (VInt 0, matches)
            else try_except
                   (z ← Py.int_with int_value s; mret (VInt z, matches))
                   ValueError
                   (mret (value, false))
        | _ => mret (value, matches)
        end;
      mret (if Py.ne_zero value then false else matches)
  | _ => mret matches
  end.

Definition _can_handle_query_with (query : list Attr) : Result bool :=
  if negb (GenericClient.check_attr_types_in_query query required optional)
  then mret false
  else for_each loop_body_with query true.

End Builtin.

(** The function with [int] read by [Py.int_value]. *)
Definition loop_body : bool -> Attr -> Result bool :=
  loop_body_with Py.int_value.

Definition _can_handle_query : list Attr -> Result bool :=
  _can_handle_query_with Py.int_value.

(** [register_values]: the table of accepted values, per attribute
    class, as (name, description) pairs. *)
Definition register_values : list (AttrType * list (string * string)) :=
  [ (TInstrument,
     [("EVE", "Extreme ultraviolet Variability Experiment, which is part of the NASA Solar Dynamics Observatory mission.")]);
    (TLevel,
     [("0CS", "EVE: The specific EVE client can only return Level 0C data. Any other number will use the VSO Client.")]) ].

(** [_makeimap]: the assignments to [self.map_], in the order of the
    source. *)
Definition _makeimap (map_ : gmap string string) : gmap string string :=
  <["physobs" := "irradiance"]>
    (<["instrument" := "eve"]>
       (<["provider" := "LASP"]>
          (<["source" := "SDO"]> map_))).

End EVEClient.

(** [name in names] for a list of strings *)
Definition str_in (name : string) (names : list string) : bool :=
  existsb (String.eqb name) names.

(** [all(l)] *)
Definition all (l : list bool) : bool := forallb id l.

(** [x.__class__.__name__ == 'Instrument' and x.value.lower() in names] *)
Definition is_instrument_named (names : list string) (x : Attr) : bool :=
  String.eqb (class_name (attr_type x)) "Instrument"
  && match x with
     | Instrument value => str_in (PyStr.lower value) names
     | _ => false
     end.

(** ** [fermi_gbm.py] *)

Module GBMClient.

Definition chkattr : list string :=
  ["Time"; "Instrument"; "Detector"; "Resolution"].

(** The [for x in query:] loop, which returns from the function at the
    first Instrument attribute naming the client. *)
Fixpoint loop (chklist : list bool) (query : list Attr) : bool :=
  match query with
  | [] => false
  | x :: rest =>
      if is_instrument_named ["gbm"] x then all chklist
      else loop chklist rest
  end.

Definition _can_handle_query (query : list Attr) : bool :=
  let chklist :=
    map (fun x => str_in (class_name (attr_type x)) chkattr) query in
  loop chklist query.

Definition register_values : list (AttrType * list (string * string)) :=
  [ (TInstrument,
     [("GBM", "Gamma-Ray Burst Monitor on board the Fermi satellite.")]);
    (TPhysobs,
     [("CSPEC", "counts accumulated every 4.096 seconds in 128 energy channels for each detector.");
      ("CTIME", "counts accumulated every 0.256 seconds in 8 energy channels")]);
    (TDetector,
     map (fun x : nat =>
            ("n" ++ PyStr.of_int (Z.of_nat x),
             "GBM Detector short name for the detector NAI_"
             ++ PyStr.of_int_zero_padded 2 (Z.of_nat x)))
         (seq 0 12));
    (TResolution,
     [("CSPEC", "CSPEC 128 channel spectra every 4.096 seconds.");
      ("CTIME", "CTIME provides 8 channel spectra every 0.256 seconds")]) ].

(** Module-level helper [_check_detector], for a [detector] that is a
    [str].  The source calls [detector.lower()] without testing the
    class of [detector]; a value without that method is outside this
    definition. *)
Definition _check_detector (detector : string) : Result string :=
  let detector_numbers :=
    map (fun i : nat => PyStr.of_int (Z.of_nat i)) (seq 0 12) in
  let detector_list := map (fun i => "n" ++ i) detector_numbers in
  if str_in (PyStr.lower detector) detector_list
  then mret (PyStr.lower detector)
  else if str_in detector detector_numbers
       then mret ("n" ++ detector)
       else Raise ValueError.


Definition _makeimap (map_ : gmap string string) : gmap string string :=
  <["provider" := "NASA"]>
    (<["physobs" := "flux"]>
       (<["instrument" := "GBM"]>
          (<["source" := "FERMI"]> map_))).

End GBMClient.

(** The names registered for an attribute class in a [register_values]
    table, and case-insensitive membership among them. *)
Definition registered_names
    (table : list (AttrType * list (string * string))) (cls : AttrType)
  : list string :=
  flat_map (fun entry : AttrType * list (string * string) =>
              if bool_decide (entry.1 = cls) then map fst entry.2 else [])
           table.

Definition name_registered
    (table : list (AttrType * list (string * string))) (cls : AttrType)
    (value : string) : bool :=
  str_in (PyStr.lower value) (map PyStr.lower (registered_names table cls)).

(** ** Dates and time ranges *)

Module Calendar.

(** Days since 1970-01-01 of a date of the proleptic Gregorian
    calendar. *)
Definition days_from_civil (y m d : Z) : Z :=
  let y' := if (m <=? 2)%Z then y - 1 else y in
  let era := y' / 400 in
  let yoe := y' - era * 400 in
  let mp := if (m >? 2)%Z then m - 3 else m + 9 in
  let doy := (153 * mp + 2) / 5 + d - 1 in
  let doe := yoe * 365 + yoe / 4 - yoe / 100 + doy in
  era * 146097 + doe - 719468.

(** The date (year, month, day) of a day number. *)
Definition civil_from_days (z : Z) : Z * Z * Z :=
  let z := z + 719468 in
  let era := z / 146097 in
  let doe := z - era * 146097 in
  let yoe := (doe - doe / 1460 + doe / 36524 - doe / 146096) / 365 in
  let doy := doe - (365 * yoe + yoe / 4 - yoe / 100) in
  let mp := (5 * doy + 2) / 153 in
  let d := doy - (153 * mp + 2) / 5 + 1 in
  let m := if (mp <? 10)%Z then mp + 3 else mp - 9 in
  let y := yoe + era * 400 in
  (if (m <=? 2)%Z then y + 1 else y, m, d).

Definition seconds_per_day : Z := 86400.

(** The instant, in seconds since 1970-01-01 00:00:00, of a date and a
    time of day. *)
Definition datetime (y m d hh mm ss : Z) : Z :=
  days_from_civil y m d * seconds_per_day + hh * 3600 + mm * 60 + ss.

Definition date (y m d : Z) : Z := datetime y m d 0 0 0.

End Calendar.

Record TimeRange : Type := { tr_start : Z; tr_end : Z }.

(** Modelled from the spec: [TimeRange.__contains__] of [sunpy.time],
    which is not among the sources.  Following section 3, a time range
    is the inclusive pair [[start, end]]. *)
Definition TimeRange_contains (tr : TimeRange) (t : Z) : bool :=
  (tr_start tr <=? t)%Z && (t <=? tr_end tr)%Z.

(** ** [str.format] with keyword arguments *)

Inductive FmtArg : Type :=
| FStr (s : string)
| FInt (z : Z).

Module PyFormat.

Definition lookup (kwargs : list (string * FmtArg)) (name : string)
  : Result FmtArg :=
  match find (fun kv : string * FmtArg => String.eqb kv.1 name) kwargs with
  | Some kv => Ok kv.2
  | None => Raise KeyError
  end.

(** [format(value, spec)] for the two forms of format specification
    that the URL patterns use: the empty one, and ["0w"] on an [int].
    Any other combination is reported as [ValueError]. *)
Definition format_value (value : FmtArg) (spec : string) : Result string :=
  match value, spec with
  | FStr s, EmptyString => Ok s
  | FInt z, EmptyString => Ok (PyStr.of_int z)
  | FInt z, String "0" width =>
      match PyStr.parse_digits 0 false (list_ascii_of_string width) with
      | Some w => Ok (PyStr.of_int_zero_padded (Z.to_nat w) z)
      | None => Raise ValueError
      end
  | _, _ => Raise ValueError
  end.

Inductive Mode : Type :=
| Literal
| FieldName (name : string)
| FieldSpec (name spec : string).

Definition snoc (s : string) (c : ascii) : string :=
  s ++ String c EmptyString.

(** One left-to-right pass over the template.  The doubled braces that
    escape a literal brace do not occur in the patterns and are not
    interpreted. *)
Fixpoint format_from (kwargs : list (string * FmtArg)) (mode : Mode)
    (template : string) : Result string :=
  match template with
  | EmptyString =>
      match mode with
      | Literal => Ok EmptyString
      | _ => Raise ValueError
      end
  | String c rest =>
      match mode with
      | Literal =>
          if Ascii.eqb c "{" then format_from kwargs (FieldName "") rest
          else if Ascii.eqb c "}" then Raise ValueError
          else out ← format_from kwargs Literal rest; mret (String c out)
      | FieldName name =>
          if Ascii.eqb c "}" then
            value ← lookup kwargs name;
            text ← format_value value "";
            out ← format_from kwargs Literal rest;
            mret (text ++ out)
          else if Ascii.eqb c ":"
               then format_from kwargs (FieldSpec name "") rest
               else format_from kwargs (FieldName (snoc name c)) rest
      | FieldSpec name spec =>
          if Ascii.eqb c "}" then
            value ← lookup kwargs name;
            text ← format_value value spec;
            out ← format_from kwargs Literal rest;
            mret (text ++ out)
          else format_from kwargs (FieldSpec name (snoc spec c)) rest
      end
  end.

(** [template.format] applied to the keyword arguments [kwargs] *)
Definition format (template : string) (kwargs : list (string * FmtArg))
  : Result string :=
  format_from kwargs Literal template.

End PyFormat.

(** ** [goes.py] *)

Module XRSClient.

Definition chkattr : list string :=
  ["Time"; "Instrument"; "SatelliteNumber"].

Fixpoint loop (chklist : list bool) (query : list Attr) : bool :=
  match query with
  | [] => false
  | x :: rest =>
      if is_instrument_named ["xrs"; "goes"] x then all chklist
      else loop chklist rest
  end.

Definition _can_handle_query (query : list Attr) : bool :=
  let chklist :=
    map (fun x => str_in (class_name (attr_type x)) chkattr) query in
  loop chklist query.

Definition _makeimap (map_ : gmap string string) : gmap string string :=
  <["provider" := "sdac"]>
    (<["physobs" := "irradiance"]>
       (<["instrument" := "goes"]>
          (<["source" := "nasa"]> map_))).

Definition _attrs_module : string * string :=
  ("goes", "sunpy.net.dataretriever.attrs.goes").

Definition register_values : list (AttrType * list (string * string)) :=
  let goes_number : list Z := [2; 5; 6; 7; 8; 9; 10; 11; 12; 13; 14; 15] in
  [ (TInstrument,
     [("GOES", "The Geostationary Operational Environmental Satellite Program.");
      ("XRS", "GOES X-ray Flux")]);
    (TSatelliteNumber,
     map (fun x : Z =>
            (PyStr.of_int x, "GOES Satellite Number " ++ PyStr.of_int x))
         goes_number) ].

End XRSClient.

(** The keyword arguments of [SUVIClient._get_url_for_timerange].  A
    wavelength is either one [Quantity], given by its value in Angstrom,
    or an attribute with [wavemin] and [wavemax]; a level is a [str] or a
    number. *)
Inductive WavelengthArg : Type :=
| WQuantity (angstrom : Q)
| WRange (wavemin wavemax : Q).

Inductive LevelArg : Type :=
| LStr (s : string)
| LInt (z : Z).

Record Kwargs : Type := {
  kw_wavelength : option WavelengthArg;
  kw_satellitenumber : option Z;
  kw_level : option LevelArg
}.

(** The arguments a [Scraper] is constructed with. *)
Record Scraper : Type := {
  sc_pattern : string;
  sc_extractor : string;
  sc_kwargs : list (string * FmtArg)
}.

(** The pattern of a scraper with its keyword arguments substituted:
    [pattern.format] on [kwargs].  The date directives and the regular
    expression fragments of the pattern are left as they are. *)
Definition Scraper_rendered (sc : Scraper) : Result string :=
  PyFormat.format (sc_pattern sc) (sc_kwargs sc).

(** [int(q)] for a number: truncation towards zero *)
Definition int_of_Q (q : Q) : Z := Z.quot (Qnum q) (Z.pos (Qden q)).

(** [n in l] for a list of integers *)
Definition Z_in (n : Z) (l : list Z) : bool := existsb (Z.eqb n) l.

(** [any(l)] *)
Definition any (l : list bool) : bool := existsb id l.

(** [itertools.compress(data, selectors)] *)
Fixpoint compress {A} (data : list A) (selectors : list bool) : list A :=
  match data, selectors with
  | d :: data', b :: selectors' =>
      if b then d :: compress data' selectors' else compress data' selectors'
  | _, _ => []
  end.

Module SUVIClient.

(** [now] is the instant [parse_time("now")] evaluates to.  In
    [_get_goes_sat_num] the [date] is a time object, given by its
    instant, as [_get_url_for_timerange] passes the start of the range;
    the message of the [ValueError] is built with [date.strftime] and is
    not modelled. *)
Definition suvi_operational (now : Z) : list (Z * TimeRange) :=
  [ (16, {| tr_start := Calendar.date 2018 6 1; tr_end := now |}) ].

Definition _get_goes_sat_num (now date : Z) : Result Z :=
  let results :=
    map fst
      (List.filter (fun e : Z * TimeRange => TimeRange_contains e.2 date)
         (suvi_operational now)) in
  match results with
  | [] => Raise ValueError
  | r :: rest => mret (fold_left Z.max rest r)
  end.

Definition base_url : string :=
  "https://data.ngdc.noaa.gov/platforms/solar-space-observing-satellites/goes/goes{goes_number}/".
Definition supported_waves : list Z := [94; 131; 171; 195; 284; 304].
Definition supported_levels : list string := ["2"; "1b"].
Definition pattern : string :=
  "{}/goes{Satellite_Numner:2d}/l{Level:.2w}{}suvi-l{:.2w}-{:.2}{Wavelength:03d}/{}".

(** The [if "wavelength" in kwargs.keys(): ... else: ...] block: the
    list [wavelength]. *)
Definition select_wavelength (kwargs : Kwargs) : Result (list Q) :=
  match kw_wavelength kwargs with
  | Some (WQuantity wavelength_input) =>
      if negb (Z_in (int_of_Q wavelength_input) supported_waves)
      then Raise ValueError
      else mret [wavelength_input]
  | Some (WRange wavemin wavemax) =>
      let compress_index :=
        map (fun this_wave : Z =>
               Qle_bool wavemin (inject_Z this_wave)
               && Qle_bool (inject_Z this_wave) wavemax)
            supported_waves in
      if negb (any compress_index) then Raise ValueError
      else mret (map inject_Z (compress supported_waves compress_index))
  | None => mret (map inject_Z supported_waves)
  end.

(** [str(kwargs.get("level", "2"))] *)
Definition level_str (kwargs : Kwargs) : string :=
  match kw_level kwargs with
  | Some (LStr s) => s
  | Some (LInt z) => PyStr.of_int z
  | None => "2"
  end.

(** The assignments to [search_pattern] in one iteration of the loop;
    the variable keeps its previous value when no branch assigns it. *)
Definition assign_search_pattern
    (level : string) (this_wave : Z) (search_pattern : option string)
  : option string :=
  if String.eqb level "2" then
    Some (base_url ++
      "l{level}/data/suvi-l{level}-ci{wave:03}/%Y/%m/%d/dr_suvi-l{level}-ci{wave:03}_g{goes_number}_s%Y%m%dT%H%M%SZ_.*\.fits")
  else if String.eqb level "1b" then
    if Z_in this_wave [131; 171; 195; 284] then
      Some (base_url ++
        "l{level}/suvi-l{level}-fe{wave:03}/%Y/%m/%d/OR_SUVI-L{level}-Fe{wave:03}_G{goes_number}_s%Y%j%H%M%S.*\.fits.gz")
    else if (this_wave =? 304)%Z then
      Some (base_url ++
        "l{level}/suvi-l{level}-he{wave:03}/%Y/%m/%d/OR_SUVI-L{level}-He{wave_minus1:03}_G{goes_number}_s%Y%j%H%M%S.*\.fits.gz")
    else if (this_wave =? 94)%Z then
      Some (base_url ++
        "l{level}/suvi-l{level}-fe{wave:03}/%Y/%m/%d/OR_SUVI-L{level}-Fe{wave_minus1:03}_G{goes_number}_s%Y%j%H%M%S.*\.fits.gz")
    else search_pattern
  else search_pattern.

(** The [if search_pattern.count('wave_minus1'): ... else: ...] block. *)
Definition make_scraper
    (level : string) (satellitenumber this_wave : Z) (search_pattern : string)
  : Scraper :=
  if negb (PyStr.count search_pattern "wave_minus1" =? 0)%nat then
    {| sc_pattern := search_pattern;
       sc_extractor := pattern;
       sc_kwargs := [ ("level", FStr level); ("wave", FInt this_wave);
                      ("goes_number", FInt satellitenumber);
                      ("wave_minus1", FInt (this_wave - 1)) ] |}
  else
    {| sc_pattern := search_pattern;
       sc_extractor := pattern;
       sc_kwargs := [ ("level", FStr level); ("wave", FInt this_wave);
                      ("goes_number", FInt satellitenumber) ] |}.

(** The scraper built for one wavelength, when [search_pattern] is
    bound at that point of the iteration. *)
Definition scraper_for
    (level : string) (satellitenumber this_wave : Z)
    (search_pattern : option string) : Result Scraper :=
  match assign_search_pattern level this_wave search_pattern with
  | Some sp => mret (make_scraper level satellitenumber this_wave sp)
  | None => Raise UnboundLocalError
  end.

Section Scraping.

(** [scraper.filelist(timerange)] lists a remote directory; it is a
    parameter of the model.  [Meta] is the type of one entry of its
    second component. *)
Context {Meta : Type}.
Variable filelist : Scraper -> TimeRange -> list string * option (list Meta).

(** The local variables that the loop reads and updates. *)
Record LoopState : Type := {
  search_pattern : option string;
  urls : list string;
  urlsmeta : list Meta
}.

Definition loop_body
    (timerange : TimeRange) (level : string) (satellitenumber : Z)
    (st : LoopState) (this_wave : Z) : Result LoopState :=
  scraper ← scraper_for level satellitenumber this_wave (search_pattern st);
  let sp := assign_search_pattern level this_wave (search_pattern st) in
  let '(url, urlmeta) := filelist scraper timerange in
  match urlmeta with
  | Some urlmeta =>
      mret {| search_pattern := sp;
              urls := urls st ++ url;
              urlsmeta := urlsmeta st ++ urlmeta |}
  | None =>
      mret {| search_pattern := sp;
              urls := urls st;
              urlsmeta := urlsmeta st |}
  end.

(** The statements before the loop: the wavelengths, the satellite
    number and the level, or the [ValueError] of the first check
    that fails.  The default of [kwargs.get] is an argument of the
    call, so [_get_goes_sat_num] is evaluated whether or not
    [satellitenumber] is given. *)
Definition check_inputs (now : Z) (timerange : TimeRange) (kwargs : Kwargs)
  : Result (list Z * Z * string) :=
  wavelength ← select_wavelength kwargs;
  let waves := map int_of_Q wavelength in
  default ← _get_goes_sat_num now (tr_start timerange);
  let satellitenumber :=
    match kw_satellitenumber kwargs with
    | Some n => n
    | None => default
    end in
  if (satellitenumber <? 16)%Z then Raise ValueError
  else
    let level := level_str kwargs in
    if negb (str_in level supported_levels) then Raise ValueError
    else mret (waves, satellitenumber, level).

Definition _get_url_for_timerange
    (now : Z) (timerange : TimeRange) (kwargs : Kwargs)
  : Result (list string * list Meta) :=
  '(waves, satellitenumber, level) ← check_inputs now timerange kwargs;
  st ← for_each (loop_body timerange level satellitenumber) waves
         {| search_pattern := None; urls := []; urlsmeta := [] |};
  mret (urls st, urlsmeta st).

End Scraping.

Definition required : gset AttrType := {[TTime; TInstrument]}.
Definition optional : gset AttrType :=
  {[TWavelength; TLevel; TSatelliteNumber]}.

Definition _can_handle_query (query : list Attr) : bool :=
  let all_attrs : gset AttrType := list_to_set (attr_type <$> query) in
  let ops := all_attrs ∖ required in
  if bool_decide (ops ≠ ∅)
     && negb (bool_decide (set_Forall (fun elem => elem ∈ optional) ops))
  then false
  else
    let check_var_count :=
      fold_left
        (fun (count : Z) (x : Attr) =>
           if isinstance x TInstrument
              && match x with
                 | Instrument value => String.eqb (PyStr.lower value) "suvi"
                 | _ => false
                 end
           then count + 1 else count)
        query 0 in
    if (check_var_count =? 1)%Z then true else false.

Definition _makeimap (map_ : gmap string string) : gmap string string :=
  <["physobs" := "flux"]>
    (<["instrument" := "SUVI"]>
       (<["provider" := "NOAA"]>
          (<["source" := "GOES"]> map_))).

Definition _attrs_module : string * string :=
  ("goes", "sunpy.net.dataretriever.attrs.goes").

Definition register_values : list (AttrType * list (string * string)) :=
  let goes_number : list Z := [16; 17] in
  [ (TInstrument,
     [("SUVI", "The Geostationary Operational Environmental Satellite Program.")]);
    (TSatelliteNumber,
     map (fun x : Z =>
            (PyStr.of_int x, "GOES Satellite Number " ++ PyStr.of_int x))
         goes_number) ].

End SUVIClient.

(** ** The temporal scraper *)

(** The clients hand their [baseurl] to [sunpy.util.scraper.Scraper],
    which is not among the sources.  This module follows sections 4.1
    and 4.2 of the specification. *)
Module TemporalScraper.

Inductive Resolution : Type :=
| Year | Month | Day | Hour | Minute | Second.

(** Position in the order year > month > day > hour > minute > second. *)
Definition fineness (r : Resolution) : nat :=
  match r with
  | Year => 0 | Month => 1 | Day => 2 | Hour => 3 | Minute => 4 | Second => 5
  end%nat.

Definition finer (r1 r2 : Resolution) : Resolution :=
  if (fineness r1 <? fineness r2)%nat then r2 else r1.

(** The unit of a date directive: year, two-digit year, month, day,
    hour, minute, second. *)
Definition directive_unit (c : ascii) : option Resolution :=
  if Ascii.eqb c "Y" then Some Year
  else if Ascii.eqb c "y" then Some Year
  else if Ascii.eqb c "m" then Some Month
  else if Ascii.eqb c "d" then Some Day
  else if Ascii.eqb c "H" then Some Hour
  else if Ascii.eqb c "M" then Some Minute
  else if Ascii.eqb c "S" then Some Second
  else None.

Fixpoint scan_directives (acc : option Resolution) (template : string)
  : Result (option Resolution) :=
  match template with
  | EmptyString => Ok acc
  | String c rest =>
      if Ascii.eqb c "%" then
        match rest with
        | String d rest' =>
            match directive_unit d with
            | Some u =>
                scan_directives
                  (Some (match acc with Some a => finer a u | None => u end))
                  rest'
            | None => Raise PatternError
            end
        | EmptyString => Raise PatternError
        end
      else scan_directives acc rest
  end.

(** Modelled from the spec: the resolution component of
    [compilePattern] (section 4.1), the part of the missing [Scraper]
    that scans the template for date directives.  The resolution is the
    finest unit present, which is what makes a template with year,
    month and day directives a daily one; an unknown directive is a
    [PatternError].  A template without directives has no resolution. *)
Definition pattern_resolution (template : string) : Result (option Resolution) :=
  scan_directives None template.

(** The first instant of the bucket that contains [t]. *)
Definition bucket_of (r : Resolution) (t : Z) : Z :=
  match r with
  | Second => t
  | Minute => t - t mod 60
  | Hour => t - t mod 3600
  | Day => t - t mod Calendar.seconds_per_day
  | Month =>
      let '(y, m, _) := Calendar.civil_from_days (t / Calendar.seconds_per_day) in
      Calendar.date y m 1
  | Year =>
      let '(y, _, _) := Calendar.civil_from_days (t / Calendar.seconds_per_day) in
      Calendar.date y 1 1
  end.

(** The bucket after the bucket that starts at [b]. *)
Definition next_bucket (r : Resolution) (b : Z) : Z :=
  match r with
  | Second => b + 1
  | Minute => b + 60
  | Hour => b + 3600
  | Day => b + Calendar.seconds_per_day
  | Month =>
      let '(y, m, _) := Calendar.civil_from_days (b / Calendar.seconds_per_day) in
      if (m =? 12)%Z then Calendar.date (y + 1) 1 1 else Calendar.date y (m + 1) 1
  | Year =>
      let '(y, _, _) := Calendar.civil_from_days (b / Calendar.seconds_per_day) in
      Calendar.date (y + 1) 1 1
  end.

(** A lower bound on the length of a bucket, in seconds. *)
Definition shortest_bucket (r : Resolution) : Z :=
  match r with
  | Second => 1
  | Minute => 60
  | Hour => 3600
  | Day => Calendar.seconds_per_day
  | Month => 28 * Calendar.seconds_per_day
  | Year => 365 * Calendar.seconds_per_day
  end.

(** Stepping from bucket [b] while the bucket does not start after
    [stop]; [steps] bounds the number of buckets. *)
Fixpoint step_buckets (r : Resolution) (steps : nat) (b stop : Z) : list Z :=
  match steps with
  | O => []
  | S steps' =>
      if (b <=? stop)%Z then b :: step_buckets r steps' (next_bucket r b) stop
      else []
  end.

(** Modelled from the spec: [enumerate(timeRange, resolution)] (section
    4.2) of the missing [Scraper]: the ordered buckets that cover the
    range, stepping by the resolution from the bucket of [start] and
    including the bucket that contains [end].  The bound on the number
    of steps is one more than the number of shortest buckets that fit
    in the range. *)
Definition enumerate (timerange : TimeRange) (r : Resolution) : list Z :=
  let first := bucket_of r (tr_start timerange) in
  let steps := Z.to_nat ((tr_end timerange - first) / shortest_bucket r + 1) in
  step_buckets r steps first (tr_end timerange).

(** The text of a date directive at instant [t]. *)
Definition directive_text (c : ascii) (t : Z) : string :=
  let '(y, m, d) := Calendar.civil_from_days (t / Calendar.seconds_per_day) in
  let s := t mod Calendar.seconds_per_day in
  if Ascii.eqb c "Y" then PyStr.of_int_zero_padded 4 y
  else if Ascii.eqb c "y" then PyStr.of_int_zero_padded 2 (y mod 100)
  else if Ascii.eqb c "m" then PyStr.of_int_zero_padded 2 m
  else if Ascii.eqb c "d" then PyStr.of_int_zero_padded 2 d
  else if Ascii.eqb c "H" then PyStr.of_int_zero_padded 2 (s / 3600)
  else if Ascii.eqb c "M" then PyStr.of_int_zero_padded 2 (s mod 3600 / 60)
  else if Ascii.eqb c "S" then PyStr.of_int_zero_padded 2 (s mod 60)
  else String "%" (String c EmptyString).

(** Modelled from the spec: rendering a bucket back into a concrete
    string with the original pattern (section 4.2): every date
    directive is replaced by the digits of its unit, everything else is
    kept. *)
Fixpoint render (template : string) (t : Z) : string :=
  match template with
  | EmptyString => EmptyString
  | String c rest =>
      if Ascii.eqb c "%" then
        match rest with
        | String d rest' => directive_text d t ++ render rest' t
        | EmptyString => String c EmptyString
        end
      else String c (render rest t)
  end.

(** The candidate URLs of a template over a time range, in bucket
    order. *)
Definition candidates (template : string) (timerange : TimeRange)
  : Result (list string) :=
  r ← pattern_resolution template;
  match r with
  | Some r => mret (map (render template) (enumerate timerange r))
  | None => mret [template]
  end.

End TemporalScraper.

(** * Properties *)

(** ** Vocabulary of the statements *)

(** The normalisation of a Level value as the specification words it:
    the string "0cs", compared case-insensitively, normalises to 0; any
    other string is converted with [int] and must equal 0; a value that
    is not a string must equal 0. *)
Definition level_normalizes_to_zero_with
    (int_value : string -> option Z) (value : PyVal) : bool :=
  match value with
  | VStr s =>
      if String.eqb (PyStr.lower s) "0cs" then true
      else match int_value s with
           | Some z => (z =? 0)%Z
           | None => false
           end
  | VInt z => (z =? 0)%Z
  | VFloat (S754_zero _) => true
  | VFloat _ => false
  | VNone => false
  end.

(** An attribute passes the Level test of a Level-0-only client. *)
Definition level_is_zero_with
    (int_value : string -> option Z) (x : Attr) : bool :=
  match x with
  | Level value => level_normalizes_to_zero_with int_value value
  | _ => true
  end.

Definition level_normalizes_to_zero : PyVal -> bool :=
  level_normalizes_to_zero_with Py.int_value.

Definition level_is_zero : Attr -> bool := level_is_zero_with Py.int_value.

(** An attribute passes the Instrument test for the name [name]. *)
Definition instrument_is (name : string) (x : Attr) : bool :=
  match x with
  | Instrument value => String.eqb (PyStr.lower value) name
  | _ => true
  end.

(** The class of [x] is named in [chkattr]. *)
Definition named_in (chkattr : list string) (x : Attr) : bool :=
  str_in (class_name (attr_type x)) chkattr.

(** The local [check_var_count] after the loop. *)
Definition suvi_count (query : list Attr) (count : Z) : Z :=
  fold_left
    (fun (count : Z) (x : Attr) =>
       if isinstance x TInstrument
          && match x with
             | Instrument value => String.eqb (PyStr.lower value) "suvi"
             | _ => false
             end
       then count + 1 else count)
    query count.

(** The class of [x] is one of [kinds]. *)
Definition type_in (kinds : gset AttrType) (x : Attr) : bool :=
  bool_decide (attr_type x ∈ kinds).

(** Two attributes that are the same except, for an Instrument, the
    letter case of its value. *)
Inductive same_up_to_instrument_case : Attr -> Attr -> Prop :=
| same_instrument (v v' : string) :
    PyStr.lower v = PyStr.lower v' ->
    same_up_to_instrument_case (Instrument v) (Instrument v')
| same_attr (x : Attr) : same_up_to_instrument_case x x.

(** The pattern the scraper of one wavelength searches with: the
    pattern of [scraper_for] with its keyword arguments substituted. *)
Definition suvi_rendered
    (level : string) (satellitenumber this_wave : Z)
    (search_pattern : option string) : Result string :=
  sc ← SUVIClient.scraper_for level satellitenumber this_wave search_pattern;
  Scraper_rendered sc.

(** The shape of a level-1b pattern: the directory names the band by
    [dir_wave], the file name by [file_wave]. *)
Definition suvi_l1b_url
    (goes_number : Z) (band Band : string) (dir_wave file_wave : Z) : string :=
  "https://data.ngdc.noaa.gov/platforms/solar-space-observing-satellites/goes/goes"
  ++ PyStr.of_int goes_number ++ "/l1b/suvi-l1b-" ++ band
  ++ PyStr.of_int_zero_padded 3 dir_wave ++ "/%Y/%m/%d/OR_SUVI-L1b-" ++ Band
  ++ PyStr.of_int_zero_padded 3 file_wave ++ "_G"
  ++ PyStr.of_int goes_number ++ "_s%Y%j%H%M%S.*\.fits.gz".

(** The shape of a level-2 pattern. *)
Definition suvi_l2_url (goes_number : Z) (dir_wave file_wave : Z) : string :=
  "https://data.ngdc.noaa.gov/platforms/solar-space-observing-satellites/goes/goes"
  ++ PyStr.of_int goes_number ++ "/l2/data/suvi-l2-ci"
  ++ PyStr.of_int_zero_padded 3 dir_wave ++ "/%Y/%m/%d/dr_suvi-l2-ci"
  ++ PyStr.of_int_zero_padded 3 file_wave ++ "_g"
  ++ PyStr.of_int goes_number ++ "_s%Y%m%dT%H%M%SZ_.*\.fits".

(** A directory listing that answers every scraper with its own search
    pattern, and with the scraper as metadata: it makes the scrapers that
    [_get_url_for_timerange] builds visible in its result. *)
Definition echo_filelist (sc : Scraper) (timerange : TimeRange)
  : list string * option (list Scraper) :=
  (match Scraper_rendered sc with Ok url => [url] | Raise _ => [] end,
   Some [sc]).

(** The number of the day that contains an instant. *)
Definition day_of (t : Z) : Z := t / Calendar.seconds_per_day.

(** The first instant of a day. *)
Definition day_start (d : Z) : Z := d * Calendar.seconds_per_day.

(** The failures of validation of [SUVIClient._get_url_for_timerange].
    A wavelength is unsupported when the integer part of a [Quantity] is
    none of the supported wavelengths, or when a range contains none of
    them. *)
Definition wavelength_unsupported (kwargs : Kwargs) : bool :=
  match kw_wavelength kwargs with
  | Some (WQuantity q) => negb (Z_in (int_of_Q q) SUVIClient.supported_waves)
  | Some (WRange wavemin wavemax) =>
      negb (existsb (fun wave : Z =>
                       Qle_bool wavemin (inject_Z wave)
                       && Qle_bool (inject_Z wave) wavemax)
                    SUVIClient.supported_waves)
  | None => false
  end.

(** The same with a [Quantity] compared as a number, as the property is
    worded: the wavelength is not one of the supported ones. *)
Definition wavelength_not_in_set (kwargs : Kwargs) : bool :=
  match kw_wavelength kwargs with
  | Some (WQuantity q) =>
      negb (existsb (fun wave : Z => Qeq_bool q (inject_Z wave))
                    SUVIClient.supported_waves)
  | Some (WRange wavemin wavemax) =>
      negb (existsb (fun wave : Z =>
                       Qle_bool wavemin (inject_Z wave)
                       && Qle_bool (inject_Z wave) wavemax)
                    SUVIClient.supported_waves)
  | None => false
  end.

Definition satellitenumber_below_16 (kwargs : Kwargs) : bool :=
  match kw_satellitenumber kwargs with
  | Some n => (n <? 16)%Z
  | None => false
  end.

Definition level_unsupported (kwargs : Kwargs) : bool :=
  negb (str_in (SUVIClient.level_str kwargs) SUVIClient.supported_levels).

(** The range starts outside the time SUVI has been operational, from
    2018-06-01 to [now]. *)
Definition start_not_operational (now : Z) (timerange : TimeRange) : bool :=
  negb (TimeRange_contains
          {| tr_start := Calendar.date 2018 6 1; tr_end := now |}
          (tr_start timerange)).

(** No satellite number is given and the range starts before 2018-06-01. *)
Definition no_satellite_and_starts_before_2018_06_01
    (timerange : TimeRange) (kwargs : Kwargs) : bool :=
  match kw_satellitenumber kwargs with
  | Some _ => false
  | None => (tr_start timerange <? Calendar.date 2018 6 1)%Z
  end.

(** The cases in which the property, as worded, has the function raise. *)
Definition validation_fails_as_stated
    (timerange : TimeRange) (kwargs : Kwargs) : bool :=
  wavelength_not_in_set kwargs
  || satellitenumber_below_16 kwargs
  || level_unsupported kwargs
  || no_satellite_and_starts_before_2018_06_01 timerange kwargs.

(** The list [wavelength] and the satellite number after the checks. *)
Definition selected_wavelength (kwargs : Kwargs) : list Q :=
  match kw_wavelength kwargs with
  | Some (WQuantity q) => [q]
  | Some (WRange wavemin wavemax) =>
      map inject_Z
        (compress SUVIClient.supported_waves
           (map (fun this_wave : Z =>
                   Qle_bool wavemin (inject_Z this_wave)
                   && Qle_bool (inject_Z this_wave) wavemax)
                SUVIClient.supported_waves))
  | None => map inject_Z SUVIClient.supported_waves
  end.

Definition selected_satellitenumber (kwargs : Kwargs) : Z :=
  match kw_satellitenumber kwargs with
  | Some n => n
  | None => 16
  end.

(** What the loop of [SUVIClient._get_url_for_timerange] keeps of one
    listing: its URLs and its metadata when the metadata is not [None],
    nothing otherwise. *)
Definition kept_urls {Meta : Type}
    (listing : list string * option (list Meta)) : list string :=
  match listing.2 with
  | Some _ => listing.1
  | None => []
  end.

Definition kept_meta {Meta : Type}
    (listing : list string * option (list Meta)) : list Meta :=
  match listing.2 with
  | Some urlmeta => urlmeta
  | None => []
  end.

(** The scraper of one wavelength when no earlier iteration has bound
    [search_pattern]; [None] when the iteration would find it unbound. *)
Definition suvi_scraper (level : string) (satellitenumber this_wave : Z)
  : option Scraper :=
  match SUVIClient.scraper_for level satellitenumber this_wave None with
  | Ok sc => Some sc
  | Raise _ => None
  end.

(** A [_makeimap] sets the four entries of the static metadata to the
    given values, whatever the map held before, keeps every other entry,
    and does nothing more when applied again. *)
Definition writes_static_metadata
    (makeimap : gmap string string -> gmap string string)
    (source provider instrument physobs : string) : Prop :=
  forall map_ : gmap string string,
    makeimap map_ !! "source" = Some source
    /\ makeimap map_ !! "provider" = Some provider
    /\ makeimap map_ !! "instrument" = Some instrument
    /\ makeimap map_ !! "physobs" = Some physobs
    /\ (forall key,
           key <> "source" -> key <> "provider" ->
           key <> "instrument" -> key <> "physobs" ->
           makeimap map_ !! key = map_ !! key)
    /\ makeimap (makeimap map_) = makeimap map_.

(** ** The loop of [EVEClient._can_handle_query] *)

Lemma int_of_str_raises (s : string) (e : Exn) :
  Py.int_of_str s = Raise e -> e = ValueError.
Proof.
  unfold Py.int_of_str, Py.int_with.
  destruct (Py.int_value s); [discriminate | congruence].
Qed.

Section AnyInt.

Variable int_value : string -> option Z.

Lemma EVE_loop_body_with_spec (matches : bool) (x : Attr) :
  EVEClient.loop_body_with int_value matches x
  = Ok (matches && instrument_is "eve" x && level_is_zero_with int_value x).
Proof.
  destruct x as [| v | v | | | | | |]; cbn;
    try (destruct matches; reflexivity).
  - destruct (String.eqb (PyStr.lower v) "eve"), matches; reflexivity.
  - destruct v as [s | z | f |]; cbn.
    + destruct (String.eqb (PyStr.lower s) "0cs"); cbn.
      * destruct matches; reflexivity.
      * unfold Py.int_with. destruct (int_value s) as [z |]; cbn.
        -- destruct (z =? 0)%Z, matches; reflexivity.
        -- destruct matches; reflexivity.
    + destruct (z =? 0)%Z, matches; reflexivity.
    + destruct f, matches; reflexivity.
    + destruct matches; reflexivity.
Qed.

Lemma EVE_loop_with_spec (query : list Attr) (matches : bool) :
  for_each (EVEClient.loop_body_with int_value) query matches
  = Ok (matches && forallb (instrument_is "eve") query
        && forallb (level_is_zero_with int_value) query).
Proof.
  revert matches.
  induction query as [| x query IH]; intros matches; cbn [for_each forallb].
  - destruct matches; reflexivity.
  - rewrite EVE_loop_body_with_spec. cbn [mbind Result_bind]. rewrite IH.
    f_equal.
    destruct matches, (instrument_is "eve" x), (level_is_zero_with int_value x),
      (forallb (instrument_is "eve") query); reflexivity.
Qed.

Lemma EVE_can_handle_query_with_spec (query : list Attr) :
  EVEClient._can_handle_query_with int_value query
  = Ok (GenericClient.check_attr_types_in_query
          query EVEClient.required EVEClient.optional
        && forallb (instrument_is "eve") query
        && forallb (level_is_zero_with int_value) query).
Proof.
  unfold EVEClient._can_handle_query_with.
  destruct (GenericClient.check_attr_types_in_query _ _ _); cbn [negb andb].
  - apply EVE_loop_with_spec.
  - reflexivity.
Qed.

End AnyInt.

Lemma EVE_loop_body_spec (matches : bool) (x : Attr) :
  EVEClient.loop_body matches x
  = Ok (matches && instrument_is "eve" x && level_is_zero x).
Proof. apply EVE_loop_body_with_spec. Qed.

Lemma EVE_loop_spec (query : list Attr) (matches : bool) :
  for_each EVEClient.loop_body query matches
  = Ok (matches && forallb (instrument_is "eve") query
        && forallb level_is_zero query).
Proof. apply EVE_loop_with_spec. Qed.

Lemma EVE_can_handle_query_spec (query : list Attr) :
  EVEClient._can_handle_query query
  = Ok (GenericClient.check_attr_types_in_query
          query EVEClient.required EVEClient.optional
        && forallb (instrument_is "eve") query
        && forallb level_is_zero query).
Proof. apply EVE_can_handle_query_with_spec. Qed.

(** The kind check reads the query only through the classes of its
    attributes. *)
Lemma check_attr_types_by_type (q q' : list Attr) (required optional : gset AttrType) :
  attr_type <$> q = attr_type <$> q' ->
  GenericClient.check_attr_types_in_query q required optional
  = GenericClient.check_attr_types_in_query q' required optional.
Proof.
  intros H. unfold GenericClient.check_attr_types_in_query. rewrite H.
  reflexivity.
Qed.

(** ** Level values at a Level-0-only client *)

Lemma forallb_insert {A} (f : A -> bool) (q1 q2 : list A) (x : A) :
  forallb f (q1 ++ x :: q2) = forallb f q1 && (f x && forallb f q2).
Proof. rewrite forallb_app. reflexivity. Qed.

Lemma EVE_with_level_replace
    (int_value : string -> option Z) (q1 q2 : list Attr) (v v' : PyVal) :
  level_normalizes_to_zero_with int_value v
  = level_normalizes_to_zero_with int_value v' ->
  EVEClient._can_handle_query_with int_value (q1 ++ Level v :: q2)
  = EVEClient._can_handle_query_with int_value (q1 ++ Level v' :: q2).
Proof.
  intros Hv. rewrite !EVE_can_handle_query_with_spec.
  rewrite (check_attr_types_by_type (q1 ++ Level v :: q2) (q1 ++ Level v' :: q2))
    by (rewrite !fmap_app; reflexivity).
  rewrite !forallb_insert. cbn [level_is_zero_with instrument_is].
  rewrite Hv. reflexivity.
Qed.

Lemma EVE_with_level_rejected
    (int_value : string -> option Z) (q1 q2 : list Attr) (v : PyVal) :
  level_normalizes_to_zero_with int_value v = false ->
  EVEClient._can_handle_query_with int_value (q1 ++ Level v :: q2) = Ok false.
Proof.
  intros Hv. rewrite EVE_can_handle_query_with_spec.
  rewrite (forallb_insert (level_is_zero_with int_value)).
  cbn [level_is_zero_with]. rewrite Hv.
  rewrite !andb_false_r. reflexivity.
Qed.

Lemma EVE_level_rejected (q1 q2 : list Attr) (v : PyVal) :
  level_normalizes_to_zero v = false ->
  EVEClient._can_handle_query (q1 ++ Level v :: q2) = Ok false.
Proof. apply EVE_with_level_rejected. Qed.

(** C1.  [EVEClient._can_handle_query] accepts the Level attributes of a
    query exactly when their values normalise to 0.  Whatever integer
    [int] reads from a string, the result is the conjunction of the kind
    check, of the Instrument test and of the normalisation on every
    Level value: the string "0cs" in any letter case normalises to 0,
    any other string is converted with [int] and must give 0, a value
    that is not a string must equal 0.  Hence, in every query,
    [Level("0cs")] in any letter case and [Level(0)] are accepted
    identically, a string that is not the alias and that [int] does not
    read as 0 is rejected, as [Level("wibble")] is, and so is
    [Level(0.5)]; with Time and Instrument('eve'), [Level("0cs")],
    [Level(0)] and every string that [int] reads as 0 are accepted. *)
Theorem EVE_level_accepted_iff_normalizes_to_zero
    (int_value : string -> option Z) :
  (forall query,
      EVEClient._can_handle_query_with int_value query
      = Ok (GenericClient.check_attr_types_in_query
              query EVEClient.required EVEClient.optional
            && forallb (instrument_is "eve") query
            && forallb (level_is_zero_with int_value) query))
  /\ Forall (fun alias =>
               forall q1 q2,
                 EVEClient._can_handle_query_with int_value
                   (q1 ++ Level (VStr alias) :: q2)
                 = EVEClient._can_handle_query_with int_value
                     (q1 ++ Level (VInt 0) :: q2))
            ["0cs"; "0Cs"; "0cS"; "0CS"]
  /\ (forall q1 q2 s,
         PyStr.lower s <> "0cs" -> int_value s <> Some 0 ->
         EVEClient._can_handle_query_with int_value
           (q1 ++ Level (VStr s) :: q2) = Ok false)
  /\ (forall q1 q2,
         EVEClient._can_handle_query_with int_value
           (q1 ++ Level (VFloat Py.half) :: q2) = Ok false)
  /\ (forall t0 t1,
         EVEClient._can_handle_query_with int_value
           [Time t0 t1; Instrument "eve"; Level (VStr "0cs")] = Ok true
         /\ EVEClient._can_handle_query_with int_value
              [Time t0 t1; Instrument "eve"; Level (VInt 0)] = Ok true)
  /\ (forall t0 t1 s,
         int_value s = Some 0 ->
         EVEClient._can_handle_query_with int_value
           [Time t0 t1; Instrument "eve"; Level (VStr s)] = Ok true)
  /\ (forall q1 q2,
         EVEClient._can_handle_query (q1 ++ Level (VStr "wibble") :: q2)
         = Ok false)
  /\ (forall t0 t1,
         EVEClient._can_handle_query
           [Time t0 t1; Instrument "eve"; Level (VStr "0")] = Ok true
         /\ EVEClient._can_handle_query
              [Time t0 t1; Instrument "eve"; Level (VStr "1")] = Ok false).
Proof.
  split; [exact (EVE_can_handle_query_with_spec int_value) |].
  split.
  { repeat constructor; intros q1 q2; apply EVE_with_level_replace;
      reflexivity. }
  split.
  { intros q1 q2 s Halias Hint. apply EVE_with_level_rejected. cbn.
    destruct (String.eqb_spec (PyStr.lower s) "0cs") as [Heq | _];
      [contradiction |].
    destruct (int_value s) as [z |]; [| reflexivity].
    apply Z.eqb_neq. intros ->. apply Hint. reflexivity. }
  split; [intros; apply EVE_with_level_rejected; reflexivity |].
  split.
  { intros t0 t1. rewrite !EVE_can_handle_query_with_spec.
    split; vm_compute; reflexivity. }
  split.
  { intros t0 t1 s Hs. rewrite EVE_can_handle_query_with_spec.
    assert (Hc : GenericClient.check_attr_types_in_query
                   [Time t0 t1; Instrument "eve"; Level (VStr s)]
                   EVEClient.required EVEClient.optional = true)
      by (vm_compute; reflexivity).
    rewrite Hc. cbn. rewrite Hs.
    destruct (String.eqb (PyStr.lower s) "0cs"); reflexivity. }
  split; [intros; apply EVE_level_rejected; reflexivity |].
  intros t0 t1. split; vm_compute; reflexivity.
Qed.

Lemma EVE_level_accepted_iff_normalizes_to_zero_witness :
  EVEClient._can_handle_query_with Py.int_value
    ([Time 0 1; Instrument "eve"] ++ [Level (VStr "wibble")]) = Ok false
  /\ EVEClient._can_handle_query_with Py.int_value
       [Time 0 1; Instrument "eve"; Level (VStr " +0_0 ")] = Ok true.
Proof.
  split.
  - apply (proj1 (proj2 (proj2
             (EVE_level_accepted_iff_normalizes_to_zero Py.int_value)))
             [Time 0 1; Instrument "eve"] [] "wibble").
    + simpl. discriminate.
    + vm_compute. discriminate.
  - apply (proj1 (proj2 (proj2 (proj2 (proj2 (proj2
             (EVE_level_accepted_iff_normalizes_to_zero Py.int_value))))))
             0 1 " +0_0 ").
    vm_compute. reflexivity.
Defined.

(** ** The name-based clients: [GBMClient] and [XRSClient] *)

Lemma all_map {A} (f : A -> bool) (l : list A) : all (map f l) = forallb f l.
Proof.
  unfold all. induction l as [| a l IH]; cbn; [reflexivity |].
  rewrite IH. reflexivity.
Qed.

Lemma GBM_loop_spec (chklist : list bool) (query : list Attr) :
  GBMClient.loop chklist query
  = existsb (is_instrument_named ["gbm"]) query && all chklist.
Proof.
  induction query as [| x query IH]; cbn; [reflexivity |].
  destruct (is_instrument_named ["gbm"] x); cbn; [reflexivity | exact IH].
Qed.

Lemma XRS_loop_spec (chklist : list bool) (query : list Attr) :
  XRSClient.loop chklist query
  = existsb (is_instrument_named ["xrs"; "goes"]) query && all chklist.
Proof.
  induction query as [| x query IH]; cbn; [reflexivity |].
  destruct (is_instrument_named ["xrs"; "goes"] x); cbn; [reflexivity | exact IH].
Qed.

Lemma GBM_can_handle_query_spec (query : list Attr) :
  GBMClient._can_handle_query query
  = existsb (is_instrument_named ["gbm"]) query
    && forallb (named_in GBMClient.chkattr) query.
Proof.
  unfold GBMClient._can_handle_query.
  rewrite GBM_loop_spec, all_map. reflexivity.
Qed.

Lemma XRS_can_handle_query_spec (query : list Attr) :
  XRSClient._can_handle_query query
  = existsb (is_instrument_named ["xrs"; "goes"]) query
    && forallb (named_in XRSClient.chkattr) query.
Proof.
  unfold XRSClient._can_handle_query.
  rewrite XRS_loop_spec, all_map. reflexivity.
Qed.

Lemma is_instrument_named_type (names : list string) (x : Attr) :
  is_instrument_named names x = true -> attr_type x = TInstrument.
Proof. destruct x; cbn; intros H; (discriminate || reflexivity). Qed.

Lemma no_instrument_named (names : list string) (query : list Attr) :
  ~ In TInstrument (map attr_type query) ->
  existsb (is_instrument_named names) query = false.
Proof.
  intros Hno. apply not_true_is_false. intros H.
  apply existsb_exists in H. destruct H as (x & Hx & Hnamed).
  apply Hno. apply in_map_iff. exists x. split; [| exact Hx].
  exact (is_instrument_named_type _ _ Hnamed).
Qed.

(** ** The set-based clients: [SUVIClient] and [EVEClient] *)

Lemma SUVI_can_handle_query_spec (query : list Attr) :
  SUVIClient._can_handle_query query
  = forallb (type_in (SUVIClient.required ∪ SUVIClient.optional)) query
    && (suvi_count query 0 =? 1)%Z.
Proof.
  unfold SUVIClient._can_handle_query. fold (suvi_count query 0).
  set (all_attrs := list_to_set (attr_type <$> query) : gset AttrType).
  set (ops := all_attrs ∖ SUVIClient.required).
  assert (Hiff :
    forallb (type_in (SUVIClient.required ∪ SUVIClient.optional)) query = true
    <-> set_Forall (fun elem => elem ∈ SUVIClient.optional) ops).
  { rewrite forallb_forall. unfold set_Forall, type_in. split.
    - intros H k Hk. unfold ops, all_attrs in Hk.
      apply elem_of_difference in Hk. destruct Hk as [Hk Hnot].
      apply elem_of_list_to_set, list_elem_of_fmap in Hk.
      destruct Hk as (x & -> & Hx).
      apply list_elem_of_In in Hx. specialize (H x Hx).
      apply bool_decide_eq_true in H. set_solver.
    - intros H x Hx. apply bool_decide_eq_true.
      destruct (decide (attr_type x ∈ SUVIClient.required)) as [| Hnot];
        [set_solver |].
      apply elem_of_union_r, H. unfold ops, all_attrs.
      apply elem_of_difference. split; [| exact Hnot].
      apply elem_of_list_to_set, list_elem_of_fmap. exists x.
      split; [reflexivity | apply list_elem_of_In, Hx]. }
  destruct (forallb _ query) eqn:Hall.
  - rewrite (bool_decide_eq_true_2 _ (proj1 Hiff eq_refl)).
    rewrite andb_false_r. cbn.
    destruct (suvi_count query 0 =? 1)%Z; reflexivity.
  - assert (Hnot : ~ set_Forall (fun elem => elem ∈ SUVIClient.optional) ops).
    { intros H. apply Hiff in H. discriminate. }
    rewrite (bool_decide_eq_false_2 _ Hnot).
    assert (Hne : ops ≠ ∅).
    { intros Hempty. apply Hnot. rewrite Hempty. intros k Hk. set_solver. }
    rewrite (bool_decide_eq_true_2 _ Hne). reflexivity.
Qed.

Lemma check_attr_types_missing_required
    (query : list Attr) (required optional : gset AttrType) (k : AttrType) :
  k ∈ required -> ~ In k (map attr_type query) ->
  GenericClient.check_attr_types_in_query query required optional = false.
Proof.
  intros Hk Hno. unfold GenericClient.check_attr_types_in_query.
  apply andb_false_iff. left. apply bool_decide_eq_false.
  intros Hsub. apply Hno. specialize (Hsub k Hk).
  apply elem_of_list_to_set in Hsub. apply list_elem_of_In. exact Hsub.
Qed.

Lemma check_attr_types_unknown_kind
    (q1 q2 : list Attr) (x : Attr) (required optional : gset AttrType) :
  attr_type x ∉ required ∪ optional ->
  GenericClient.check_attr_types_in_query (q1 ++ x :: q2) required optional
  = false.
Proof.
  intros Hx. unfold GenericClient.check_attr_types_in_query.
  apply andb_false_iff. right. apply bool_decide_eq_false.
  intros Hsub. apply Hx, Hsub.
  apply elem_of_list_to_set. rewrite fmap_app. cbn. set_solver.
Qed.

(** ** Required kinds *)

(** C2, as the code has it.  [EVEClient] rejects every query from which
    one of Time, Instrument and Level is absent.  [GBMClient],
    [XRSClient] and [SUVIClient] reject every query without an
    Instrument attribute.  [GBMClient] and [XRSClient] require no other
    kind: a query that consists of the Instrument attribute naming the
    client, with no Time attribute, is accepted by them. *)
Theorem required_kinds_of_the_clients :
  (forall query k,
      k ∈ EVEClient.required ->
      ~ In k (map attr_type query) ->
      EVEClient._can_handle_query query = Ok false)
  /\ (forall query,
         ~ In TInstrument (map attr_type query) ->
         GBMClient._can_handle_query query = false
         /\ XRSClient._can_handle_query query = false
         /\ SUVIClient._can_handle_query query = false)
  /\ GBMClient._can_handle_query [Instrument "gbm"] = true
  /\ XRSClient._can_handle_query [Instrument "xrs"] = true.
Proof.
  split.
  { intros query k Hk Hno. unfold EVEClient._can_handle_query, EVEClient._can_handle_query_with.
    rewrite (check_attr_types_missing_required _ _ _ k Hk Hno). reflexivity. }
  split; [| split; reflexivity].
  intros query Hno.
  rewrite GBM_can_handle_query_spec, XRS_can_handle_query_spec,
    SUVI_can_handle_query_spec.
  rewrite !no_instrument_named by exact Hno.
  split; [reflexivity | split; [reflexivity |]].
  apply andb_false_iff. right.
  assert (Hcount : forall q n, ~ In TInstrument (map attr_type q) ->
                               suvi_count q n = n).
  { induction q as [| x q IH]; intros n Hq; cbn; [reflexivity |].
    cbn in Hq. unfold suvi_count in IH.
    destruct x; cbn; try (apply IH; tauto).
    exfalso. apply Hq. left. reflexivity. }
  rewrite Hcount by exact Hno. reflexivity.
Qed.

Lemma required_kinds_of_the_clients_witness :
  EVEClient._can_handle_query [Time 0 1] = Ok false
  /\ GBMClient._can_handle_query [Time 0 1; Detector "n5"] = false.
Proof.
  split.
  - apply (proj1 required_kinds_of_the_clients [Time 0 1] TLevel).
    + vm_compute. reflexivity.
    + simpl. intros [H | []]. discriminate H.
  - apply (proj1 (proj2 required_kinds_of_the_clients)
             [Time 0 1; Detector "n5"]).
    simpl. intros [H | [H | []]]; discriminate H.
Defined.

(** C2 as stated fails: the query made of [Instrument('gbm')] alone has
    no Time attribute, and [GBMClient] accepts it. *)
Lemma GBM_accepts_query_without_Time :
  ~ In TTime (map attr_type [Instrument "gbm"])
  /\ GBMClient._can_handle_query [Instrument "gbm"] = true.
Proof.
  split; [| reflexivity].
  simpl. intros [H | []]. discriminate H.
Qed.

(** [SUVIClient] declares Time as required and its comment takes Time for
    granted after the kind check, but the check only looks at the kinds
    outside [required]: the Instrument attribute alone is accepted. *)
Remark SUVI_accepts_query_without_Time :
  SUVIClient._can_handle_query [Instrument "suvi"] = true.
Proof. vm_compute. reflexivity. Qed.

(** ** Attributes of an unrecognised kind *)

Lemma GBM_rejects_unnamed (q1 q2 : list Attr) (x : Attr) :
  named_in GBMClient.chkattr x = false ->
  GBMClient._can_handle_query (q1 ++ x :: q2) = false.
Proof.
  intros Hx. rewrite GBM_can_handle_query_spec, forallb_insert, Hx.
  cbn. rewrite !andb_false_r. reflexivity.
Qed.

Lemma XRS_rejects_unnamed (q1 q2 : list Attr) (x : Attr) :
  named_in XRSClient.chkattr x = false ->
  XRSClient._can_handle_query (q1 ++ x :: q2) = false.
Proof.
  intros Hx. rewrite XRS_can_handle_query_spec, forallb_insert, Hx.
  cbn. rewrite !andb_false_r. reflexivity.
Qed.

Lemma SUVI_rejects_unknown_kind (q1 q2 : list Attr) (x : Attr) :
  attr_type x ∉ SUVIClient.required ∪ SUVIClient.optional ->
  SUVIClient._can_handle_query (q1 ++ x :: q2) = false.
Proof.
  intros Hx. rewrite SUVI_can_handle_query_spec, forallb_insert.
  unfold type_in at 2. rewrite (bool_decide_eq_false_2 _ Hx).
  cbn. rewrite !andb_false_r. reflexivity.
Qed.

Lemma EVE_rejects_unknown_kind (q1 q2 : list Attr) (x : Attr) :
  attr_type x ∉ EVEClient.required ∪ EVEClient.optional ->
  EVEClient._can_handle_query (q1 ++ x :: q2) = Ok false.
Proof.
  intros Hx. unfold EVEClient._can_handle_query, EVEClient._can_handle_query_with.
  rewrite (check_attr_types_unknown_kind _ _ _ _ _ Hx). reflexivity.
Qed.

(** C3.  Acceptance is monotone under the extension of a query by an
    attribute [x] of a kind the client does not recognise, wherever [x]
    is put in the query: a query that is rejected stays rejected, so
    acceptance never turns from false to true; indeed the extended query
    is always rejected.  For [GBMClient] and [XRSClient] the recognised
    kinds are the class names of [chkattr]; for [SUVIClient] and
    [EVEClient] they are the required and optional classes. *)
Theorem can_handle_query_monotone_under_extension
    (q1 q2 : list Attr) (x : Attr) :
  (named_in GBMClient.chkattr x = false ->
     (GBMClient._can_handle_query (q1 ++ q2) = false ->
      GBMClient._can_handle_query (q1 ++ x :: q2) = false)
     /\ GBMClient._can_handle_query (q1 ++ x :: q2) = false)
  /\ (named_in XRSClient.chkattr x = false ->
        (XRSClient._can_handle_query (q1 ++ q2) = false ->
         XRSClient._can_handle_query (q1 ++ x :: q2) = false)
        /\ XRSClient._can_handle_query (q1 ++ x :: q2) = false)
  /\ (attr_type x ∉ SUVIClient.required ∪ SUVIClient.optional ->
        (SUVIClient._can_handle_query (q1 ++ q2) = false ->
         SUVIClient._can_handle_query (q1 ++ x :: q2) = false)
        /\ SUVIClient._can_handle_query (q1 ++ x :: q2) = false)
  /\ (attr_type x ∉ EVEClient.required ∪ EVEClient.optional ->
        (EVEClient._can_handle_query (q1 ++ q2) = Ok false ->
         EVEClient._can_handle_query (q1 ++ x :: q2) = Ok false)
        /\ EVEClient._can_handle_query (q1 ++ x :: q2) = Ok false).
Proof.
  repeat split; intros; auto using GBM_rejects_unnamed, XRS_rejects_unnamed,
    SUVI_rejects_unknown_kind, EVE_rejects_unknown_kind.
Qed.

Lemma can_handle_query_monotone_under_extension_witness :
  (GBMClient._can_handle_query [Time 0 1; Instrument "gbm"] = true
   /\ GBMClient._can_handle_query [Time 0 1; Level (VInt 0); Instrument "gbm"] = false)
  /\ (XRSClient._can_handle_query [Time 0 1; Instrument "goes"] = true
      /\ XRSClient._can_handle_query [Time 0 1; Level (VInt 0); Instrument "goes"] = false)
  /\ (SUVIClient._can_handle_query [Time 0 1; Instrument "suvi"] = true
      /\ SUVIClient._can_handle_query [Time 0 1; Detector "n5"; Instrument "suvi"] = false)
  /\ (EVEClient._can_handle_query [Time 0 1; Instrument "eve"; Level (VInt 0)] = Ok true
      /\ EVEClient._can_handle_query
           [Time 0 1; Source "sdo"; Instrument "eve"; Level (VInt 0)] = Ok false).
Proof.
  split; [| split; [| split]]; (split; [vm_compute; reflexivity |]).
  - apply (proj1 (can_handle_query_monotone_under_extension
                    [Time 0 1] [Instrument "gbm"] (Level (VInt 0)))).
    vm_compute. reflexivity.
  - apply (proj1 (proj2 (can_handle_query_monotone_under_extension
                    [Time 0 1] [Instrument "goes"] (Level (VInt 0))))).
    vm_compute. reflexivity.
  - apply (proj1 (proj2 (proj2 (can_handle_query_monotone_under_extension
                    [Time 0 1] [Instrument "suvi"] (Detector "n5"))))).
    vm_compute. intros H. discriminate H.
  - apply (proj2 (proj2 (proj2 (can_handle_query_monotone_under_extension
                    [Time 0 1] [Instrument "eve"; Level (VInt 0)] (Source "sdo"))))).
    vm_compute. intros H. discriminate H.
Defined.

(** C4.  [SUVIClient] has the required kinds Time and Instrument and the
    optional kinds Wavelength, Level and SatelliteNumber.  It accepts the
    query of Time, Instrument('suvi') and Wavelength, and rejects that
    query extended with a Detector attribute, because every query that
    holds an attribute of a kind outside the required and optional ones
    is rejected. *)
Theorem SUVI_rejects_kinds_outside_required_and_optional :
  SUVIClient.required = {[TTime; TInstrument]}
  /\ SUVIClient.optional = {[TWavelength; TLevel; TSatelliteNumber]}
  /\ (forall t0 t1 w0 w1 d,
         SUVIClient._can_handle_query
           [Time t0 t1; Instrument "suvi"; Wavelength w0 w1] = true
         /\ SUVIClient._can_handle_query
              [Time t0 t1; Instrument "suvi"; Wavelength w0 w1; Detector d]
            = false)
  /\ (forall query x,
         In x query ->
         attr_type x ∉ SUVIClient.required ∪ SUVIClient.optional ->
         SUVIClient._can_handle_query query = false).
Proof.
  split; [reflexivity |]. split; [reflexivity |]. split.
  - intros t0 t1 w0 w1 d. split; vm_compute; reflexivity.
  - intros query x Hin Hx.
    apply in_split in Hin. destruct Hin as (q1 & q2 & ->).
    apply SUVI_rejects_unknown_kind, Hx.
Qed.

Lemma SUVI_rejects_kinds_outside_required_and_optional_witness :
  SUVIClient._can_handle_query
    [Time 0 1; Instrument "suvi"; Wavelength 171 171; Detector "n5"] = false.
Proof.
  apply (proj2 (proj2 (proj2 SUVI_rejects_kinds_outside_required_and_optional))
           _ (Detector "n5")).
  - simpl. right. right. right. left. reflexivity.
  - vm_compute. intros H. discriminate H.
Defined.

(** ** Detector and Resolution values at [GBMClient] *)

Lemma GBM_value_irrelevant (q1 q2 : list Attr) (x x' : Attr) :
  attr_type x = attr_type x' ->
  attr_type x <> TInstrument ->
  GBMClient._can_handle_query (q1 ++ x :: q2)
  = GBMClient._can_handle_query (q1 ++ x' :: q2).
Proof.
  intros Hty Hni. rewrite !GBM_can_handle_query_spec, !forallb_insert.
  rewrite !existsb_app. cbn [existsb].
  assert (Hx : is_instrument_named ["gbm"] x = false).
  { apply not_true_is_false. intros H.
    apply Hni, (is_instrument_named_type _ _ H). }
  assert (Hx' : is_instrument_named ["gbm"] x' = false).
  { apply not_true_is_false. intros H.
    apply Hni. rewrite Hty. apply (is_instrument_named_type _ _ H). }
  rewrite Hx, Hx'. unfold named_in. rewrite Hty. reflexivity.
Qed.

(** C5 as stated fails: "n99" matches none of the registered detector
    names, in any letter case, and the query of Time, Instrument('gbm')
    and Detector('n99') is accepted. *)
Lemma GBM_accepts_unregistered_detector :
  name_registered GBMClient.register_values TDetector "n99" = false
  /\ GBMClient._can_handle_query
       [Time 0 1; Instrument "gbm"; Detector "n99"] = true.
Proof. split; vm_compute; reflexivity. Qed.

(** C5, as the code has it.  [GBMClient._can_handle_query] tests the
    value of the Instrument attribute only: it accepts exactly the
    queries that hold an Instrument attribute equal to 'gbm' up to
    letter case and no attribute whose class name is outside Time,
    Instrument, Detector, Resolution.  The values of Detector and
    Resolution attributes do not enter the result, so Time,
    Instrument('gbm') and any Detector or Resolution is accepted.  The
    check of a detector name against n0..n11 is the separate helper
    [_check_detector], which raises [ValueError] on 'n99'. *)
Theorem GBM_ignores_detector_and_resolution_values :
  (forall query,
      GBMClient._can_handle_query query
      = existsb (is_instrument_named ["gbm"]) query
        && forallb (named_in GBMClient.chkattr) query)
  /\ (forall q1 q2 d d',
         GBMClient._can_handle_query (q1 ++ Detector d :: q2)
         = GBMClient._can_handle_query (q1 ++ Detector d' :: q2))
  /\ (forall q1 q2 r r',
         GBMClient._can_handle_query (q1 ++ Resolution r :: q2)
         = GBMClient._can_handle_query (q1 ++ Resolution r' :: q2))
  /\ (forall t0 t1 d r,
         GBMClient._can_handle_query [Time t0 t1; Instrument "gbm"; Detector d]
         = true
         /\ GBMClient._can_handle_query
              [Time t0 t1; Instrument "gbm"; Resolution r] = true)
  /\ GBMClient._check_detector "n99" = Raise ValueError
  /\ registered_names GBMClient.register_values TDetector
     = ["n0"; "n1"; "n2"; "n3"; "n4"; "n5"; "n6"; "n7"; "n8"; "n9"; "n10"; "n11"]
  /\ registered_names GBMClient.register_values TResolution
     = ["CSPEC"; "CTIME"].
Proof.
  split; [exact GBM_can_handle_query_spec |].
  split; [intros; apply GBM_value_irrelevant; [reflexivity | discriminate] |].
  split; [intros; apply GBM_value_irrelevant; [reflexivity | discriminate] |].
  split; [intros; split; reflexivity |].
  repeat split; vm_compute; reflexivity.
Qed.

(** ** Letter case of the Instrument value *)

Section InstrumentCase.

Variables x x' : Attr.
Hypothesis Hsame : same_up_to_instrument_case x x'.

Lemma same_case_attr_type : attr_type x = attr_type x'.
Proof. destruct Hsame; reflexivity. Qed.

Lemma same_case_instrument_is (name : string) :
  instrument_is name x = instrument_is name x'.
Proof. destruct Hsame as [v v' Hv |]; cbn; [rewrite Hv |]; reflexivity. Qed.

Lemma same_case_level_is_zero : level_is_zero x = level_is_zero x'.
Proof. destruct Hsame; reflexivity. Qed.

Lemma same_case_is_instrument_named (names : list string) :
  is_instrument_named names x = is_instrument_named names x'.
Proof.
  destruct Hsame as [v v' Hv |]; unfold is_instrument_named; cbn;
    [rewrite Hv |]; reflexivity.
Qed.

Lemma same_case_named_in (chkattr : list string) :
  named_in chkattr x = named_in chkattr x'.
Proof. unfold named_in. rewrite same_case_attr_type. reflexivity. Qed.

Lemma same_case_type_in (kinds : gset AttrType) :
  type_in kinds x = type_in kinds x'.
Proof. unfold type_in. rewrite same_case_attr_type. reflexivity. Qed.

End InstrumentCase.

Lemma forallb_Forall2 {A} (R : A -> A -> Prop) (f : A -> bool) (l l' : list A) :
  (forall a a', R a a' -> f a = f a') ->
  Forall2 R l l' -> forallb f l = forallb f l'.
Proof.
  intros Hf H. induction H as [| a a' l l' Ha _ IH]; cbn; [reflexivity |].
  rewrite (Hf _ _ Ha), IH. reflexivity.
Qed.

Lemma existsb_Forall2 {A} (R : A -> A -> Prop) (f : A -> bool) (l l' : list A) :
  (forall a a', R a a' -> f a = f a') ->
  Forall2 R l l' -> existsb f l = existsb f l'.
Proof.
  intros Hf H. induction H as [| a a' l l' Ha _ IH]; cbn; [reflexivity |].
  rewrite (Hf _ _ Ha), IH. reflexivity.
Qed.

Lemma same_case_types (q q' : list Attr) :
  Forall2 same_up_to_instrument_case q q' ->
  attr_type <$> q = attr_type <$> q'.
Proof.
  intros H. induction H as [| a a' l l' Ha _ IH]; cbn; [reflexivity |].
  rewrite (same_case_attr_type _ _ Ha), IH. reflexivity.
Qed.

Lemma same_case_suvi_count (q q' : list Attr) :
  Forall2 same_up_to_instrument_case q q' ->
  forall n, suvi_count q n = suvi_count q' n.
Proof.
  intros H. induction H as [| a a' l l' Ha _ IH]; intros n; cbn;
    [reflexivity |].
  unfold suvi_count in IH.
  destruct Ha as [v v' Hv | a]; cbn; [rewrite Hv |]; apply IH.
Qed.

(** C7.  Instrument matching is case-insensitive.  Two queries that are
    the same except for the letter case of the values of their
    Instrument attributes get the same answer from each client.
    [EVEClient] accepts every casing of 'eve', [GBMClient] of 'gbm',
    [XRSClient] of 'xrs' and of 'goes', [SUVIClient] of 'suvi'. *)
Theorem instrument_matching_is_case_insensitive :
  (forall q q',
      Forall2 same_up_to_instrument_case q q' ->
      EVEClient._can_handle_query q = EVEClient._can_handle_query q'
      /\ GBMClient._can_handle_query q = GBMClient._can_handle_query q'
      /\ XRSClient._can_handle_query q = XRSClient._can_handle_query q'
      /\ SUVIClient._can_handle_query q = SUVIClient._can_handle_query q')
  /\ (forall v t0 t1,
         (PyStr.lower v = "eve" ->
          EVEClient._can_handle_query
            [Time t0 t1; Instrument v; Level (VInt 0)] = Ok true)
         /\ (PyStr.lower v = "gbm" ->
             GBMClient._can_handle_query [Time t0 t1; Instrument v] = true)
         /\ (PyStr.lower v = "xrs" \/ PyStr.lower v = "goes" ->
             XRSClient._can_handle_query [Time t0 t1; Instrument v] = true)
         /\ (PyStr.lower v = "suvi" ->
             SUVIClient._can_handle_query [Time t0 t1; Instrument v] = true)).
Proof.
  split.
  - intros q q' H.
    rewrite !EVE_can_handle_query_spec, !GBM_can_handle_query_spec,
      !XRS_can_handle_query_spec, !SUVI_can_handle_query_spec.
    rewrite (check_attr_types_by_type q q') by (apply same_case_types, H).
    rewrite (forallb_Forall2 _ (instrument_is "eve") q q'
               (fun a a' Ha => same_case_instrument_is a a' Ha "eve") H).
    rewrite (forallb_Forall2 _ level_is_zero q q' same_case_level_is_zero H).
    rewrite (existsb_Forall2 _ (is_instrument_named ["gbm"]) q q'
               (fun a a' Ha => same_case_is_instrument_named a a' Ha _) H).
    rewrite (existsb_Forall2 _ (is_instrument_named ["xrs"; "goes"]) q q'
               (fun a a' Ha => same_case_is_instrument_named a a' Ha _) H).
    rewrite (forallb_Forall2 _ (named_in GBMClient.chkattr) q q'
               (fun a a' Ha => same_case_named_in a a' Ha _) H).
    rewrite (forallb_Forall2 _ (named_in XRSClient.chkattr) q q'
               (fun a a' Ha => same_case_named_in a a' Ha _) H).
    rewrite (forallb_Forall2 _ (type_in _) q q'
               (fun a a' Ha => same_case_type_in a a' Ha _) H).
    rewrite (same_case_suvi_count q q' H 0).
    repeat split; reflexivity.
  - intros v t0 t1. repeat split.
    + intros Hv. rewrite EVE_can_handle_query_spec.
      assert (Hc : GenericClient.check_attr_types_in_query
                     [Time t0 t1; Instrument v; Level (VInt 0)]
                     EVEClient.required EVEClient.optional = true)
        by (vm_compute; reflexivity).
      rewrite Hc. cbn. rewrite Hv. reflexivity.
    + intros Hv. rewrite GBM_can_handle_query_spec.
      unfold is_instrument_named. cbn. rewrite Hv. reflexivity.
    + intros Hv. rewrite XRS_can_handle_query_spec.
      unfold is_instrument_named. cbn. destruct Hv as [-> | ->]; reflexivity.
    + intros Hv. rewrite SUVI_can_handle_query_spec.
      assert (Hc : forallb (type_in (SUVIClient.required ∪ SUVIClient.optional))
                     [Time t0 t1; Instrument v] = true)
        by (vm_compute; reflexivity).
      rewrite Hc. cbn. rewrite Hv. reflexivity.
Qed.

Lemma instrument_matching_is_case_insensitive_witness :
  (EVEClient._can_handle_query [Time 0 1; Instrument "EvE"; Level (VInt 0)]
   = EVEClient._can_handle_query [Time 0 1; Instrument "eve"; Level (VInt 0)]
   /\ GBMClient._can_handle_query [Time 0 1; Instrument "EvE"; Level (VInt 0)]
      = GBMClient._can_handle_query [Time 0 1; Instrument "eve"; Level (VInt 0)]
   /\ XRSClient._can_handle_query [Time 0 1; Instrument "EvE"; Level (VInt 0)]
      = XRSClient._can_handle_query [Time 0 1; Instrument "eve"; Level (VInt 0)]
   /\ SUVIClient._can_handle_query [Time 0 1; Instrument "EvE"; Level (VInt 0)]
      = SUVIClient._can_handle_query [Time 0 1; Instrument "eve"; Level (VInt 0)])
  /\ XRSClient._can_handle_query [Time 0 1; Instrument "GoEs"] = true.
Proof.
  split.
  - apply (proj1 instrument_matching_is_case_insensitive).
    constructor; [apply same_attr |].
    constructor; [apply same_instrument; reflexivity |].
    constructor; [apply same_attr |].
    constructor.
  - apply (proj2 instrument_matching_is_case_insensitive "GoEs" 0 1).
    right. reflexivity.
Defined.

(** ** The search patterns of [SUVIClient] *)

(** C8.  The level-1b patterns of [SUVIClient._get_url_for_timerange]
    follow a table per band.  For 304 and for 94 the scraper is given
    [wave_minus1 = this_wave - 1] and the file name holds the wavelength
    minus one (He303, Fe093) while the directory holds the wavelength;
    for 131, 171, 195 and 284 the scraper has no [wave_minus1] and the
    file name holds the wavelength as it is.  At level 2 no band has the
    offset.  This holds for every satellite number and whatever pattern
    an earlier iteration left; the last two parts run the whole function
    on the listing that echoes its scrapers. *)
Theorem SUVI_level_1b_wave_minus1_table :
  (forall sat prev,
      suvi_rendered "1b" sat 304 prev = Ok (suvi_l1b_url sat "he" "He" 304 (304 - 1))
      /\ suvi_rendered "1b" sat 94 prev = Ok (suvi_l1b_url sat "fe" "Fe" 94 (94 - 1))
      /\ Forall (fun wave =>
                   suvi_rendered "1b" sat wave prev
                   = Ok (suvi_l1b_url sat "fe" "Fe" wave wave))
                [131; 171; 195; 284]
      /\ Forall (fun wave =>
                   suvi_rendered "2" sat wave prev
                   = Ok (suvi_l2_url sat wave wave))
                SUVIClient.supported_waves)
  /\ (forall sat prev,
         Forall (fun wave =>
                   exists sc,
                     SUVIClient.scraper_for "1b" sat wave prev = Ok sc
                     /\ PyFormat.lookup (sc_kwargs sc) "wave_minus1"
                        = Ok (FInt (wave - 1)))
                [304; 94]
         /\ Forall (fun wave =>
                      exists sc,
                        SUVIClient.scraper_for "1b" sat wave prev = Ok sc
                        /\ PyFormat.lookup (sc_kwargs sc) "wave_minus1"
                           = Raise KeyError)
                   [131; 171; 195; 284]
         /\ Forall (fun wave =>
                      exists sc,
                        SUVIClient.scraper_for "2" sat wave prev = Ok sc
                        /\ PyFormat.lookup (sc_kwargs sc) "wave_minus1"
                           = Raise KeyError)
                   SUVIClient.supported_waves)
  /\ fst <$> SUVIClient._get_url_for_timerange echo_filelist
               (Calendar.date 2020 1 1)
               {| tr_start := Calendar.date 2019 1 1;
                  tr_end := Calendar.date 2019 1 2 |}
               {| kw_wavelength := None; kw_satellitenumber := None;
                  kw_level := Some (LStr "1b") |}
     = Ok [ suvi_l1b_url 16 "fe" "Fe" 94 93;
            suvi_l1b_url 16 "fe" "Fe" 131 131;
            suvi_l1b_url 16 "fe" "Fe" 171 171;
            suvi_l1b_url 16 "fe" "Fe" 195 195;
            suvi_l1b_url 16 "fe" "Fe" 284 284;
            suvi_l1b_url 16 "he" "He" 304 303 ]
  /\ fst <$> SUVIClient._get_url_for_timerange echo_filelist
               (Calendar.date 2020 1 1)
               {| tr_start := Calendar.date 2019 1 1;
                  tr_end := Calendar.date 2019 1 2 |}
               {| kw_wavelength := None; kw_satellitenumber := None;
                  kw_level := Some (LStr "2") |}
     = Ok (map (fun wave => suvi_l2_url 16 wave wave) SUVIClient.supported_waves)
  /\ suvi_l1b_url 16 "he" "He" 304 303
     = "https://data.ngdc.noaa.gov/platforms/solar-space-observing-satellites/goes/goes16/l1b/suvi-l1b-he304/%Y/%m/%d/OR_SUVI-L1b-He303_G16_s%Y%j%H%M%S.*\.fits.gz"
  /\ suvi_l1b_url 16 "fe" "Fe" 94 93
     = "https://data.ngdc.noaa.gov/platforms/solar-space-observing-satellites/goes/goes16/l1b/suvi-l1b-fe094/%Y/%m/%d/OR_SUVI-L1b-Fe093_G16_s%Y%j%H%M%S.*\.fits.gz".
Proof.
  split; [| split; [| repeat split; vm_compute; reflexivity]].
  - intros sat prev. repeat split; repeat constructor.
  - intros sat prev. repeat split; repeat constructor;
      eexists; (split; [reflexivity | reflexivity]).
Qed.

(** ** Daily buckets *)

Lemma bucket_of_day (t : Z) :
  TemporalScraper.bucket_of TemporalScraper.Day t = day_start (day_of t).
Proof.
  unfold TemporalScraper.bucket_of, day_start, day_of, Calendar.seconds_per_day.
  pose proof (Z.div_mod t 86400). lia.
Qed.

Lemma step_buckets_day (steps : nat) (stop : Z) :
  forall d : Z,
    d <= day_of stop + 1 ->
    day_of stop - d + 1 <= Z.of_nat steps ->
    TemporalScraper.step_buckets TemporalScraper.Day steps (day_start d) stop
    = day_start <$> seqZ d (day_of stop - d + 1).
Proof.
  induction steps as [| steps IH]; intros d Hd Hsteps.
  - rewrite seqZ_nil by lia. reflexivity.
  - cbn [TemporalScraper.step_buckets].
    assert (Hle : (day_start d <=? stop)%Z = (d <=? day_of stop)%Z).
    { unfold day_start, day_of, Calendar.seconds_per_day.
      apply eq_true_iff_eq. rewrite !Z.leb_le.
      split; intros H.
      - apply Z.div_le_lower_bound; lia.
      - pose proof (Z.mul_div_le stop 86400). nia. }
    rewrite Hle. destruct (Z.leb_spec d (day_of stop)) as [Hin | Hout].
    + rewrite seqZ_cons by lia. cbn [fmap list_fmap]. f_equal.
      replace (TemporalScraper.next_bucket TemporalScraper.Day (day_start d))
        with (day_start (Z.succ d))
        by (unfold TemporalScraper.next_bucket, day_start; lia).
      rewrite IH by lia. f_equal. f_equal. lia.
    + rewrite seqZ_nil by lia. reflexivity.
Qed.

Lemma enumerate_day (timerange : TimeRange) :
  TemporalScraper.enumerate timerange TemporalScraper.Day
  = day_start <$> seqZ (day_of (tr_start timerange))
                    (day_of (tr_end timerange) - day_of (tr_start timerange) + 1).
Proof.
  unfold TemporalScraper.enumerate. rewrite bucket_of_day.
  set (d0 := day_of (tr_start timerange)).
  set (d1 := day_of (tr_end timerange)).
  assert (Hdiv : (tr_end timerange - day_start d0)
                 / TemporalScraper.shortest_bucket TemporalScraper.Day
                 = d1 - d0).
  { unfold d1, day_of, day_start, TemporalScraper.shortest_bucket,
      Calendar.seconds_per_day.
    replace (tr_end timerange - d0 * 86400)
      with (tr_end timerange + (- d0) * 86400) by lia.
    rewrite Z.div_add by lia. lia. }
  rewrite Hdiv.
  destruct (Z.le_gt_cases d0 (d1 + 1)) as [Hle | Hgt].
  - apply step_buckets_day; fold d1; lia.
  - rewrite seqZ_nil by lia.
    replace (Z.to_nat (d1 - d0 + 1)) with 0%nat by lia. reflexivity.
Qed.

Lemma enumerate_degenerate (t : Z) (r : TemporalScraper.Resolution) :
  In r [TemporalScraper.Second; TemporalScraper.Minute;
        TemporalScraper.Hour; TemporalScraper.Day] ->
  TemporalScraper.enumerate {| tr_start := t; tr_end := t |} r
  = [TemporalScraper.bucket_of r t].
Proof.
  intros Hr. unfold TemporalScraper.enumerate. cbn [tr_start tr_end].
  assert (Hsteps :
    (t - TemporalScraper.bucket_of r t) / TemporalScraper.shortest_bucket r = 0
    /\ TemporalScraper.bucket_of r t <= t).
  { cbn in Hr.
    destruct Hr as [<- | [<- | [<- | [<- | []]]]];
      cbn [TemporalScraper.bucket_of TemporalScraper.shortest_bucket];
      unfold Calendar.seconds_per_day.
    - split; [replace (t - t) with 0 by lia; reflexivity | lia].
    - pose proof (Z.mod_pos_bound t 60). split; [| lia].
      apply Z.div_small. lia.
    - pose proof (Z.mod_pos_bound t 3600). split; [| lia].
      apply Z.div_small. lia.
    - pose proof (Z.mod_pos_bound t 86400). split; [| lia].
      apply Z.div_small. lia. }
  destruct Hsteps as [-> Hle]. change (Z.to_nat (0 + 1)) with 1%nat.
  cbn [TemporalScraper.step_buckets].
  destruct (Z.leb_spec (TemporalScraper.bucket_of r t) t); [reflexivity | lia].
Qed.

(** C9.  Bucket enumeration is inclusive of both endpoints at the
    resolution of the template.  The template of [EVEClient] has daily
    resolution.  At daily resolution the buckets of a range are the days
    from the day of the start to the day of the end, one each, so a range
    with start <= end has (day of end - day of start + 1) buckets, the
    first being the day of the start and the last the day of the end.  A
    range with start = end has exactly one bucket.  For 2012-07-07 to
    2012-07-14 the template yields 8 URLs, the first for 2012-07-07 and
    the last for 2012-07-14; for 2012-04-21 to 2012-04-21 it yields the
    one URL of that day. *)
Theorem EVE_daily_enumeration_is_inclusive :
  TemporalScraper.pattern_resolution EVEClient.baseurl
  = Ok (Some TemporalScraper.Day)
  /\ (forall timerange,
         TemporalScraper.enumerate timerange TemporalScraper.Day
         = day_start <$> seqZ (day_of (tr_start timerange))
                           (day_of (tr_end timerange)
                            - day_of (tr_start timerange) + 1))
  /\ (forall timerange,
         tr_start timerange <= tr_end timerange ->
         let buckets := TemporalScraper.enumerate timerange TemporalScraper.Day in
         Z.of_nat (length buckets)
         = day_of (tr_end timerange) - day_of (tr_start timerange) + 1
         /\ head buckets = Some (day_start (day_of (tr_start timerange)))
         /\ last buckets = Some (day_start (day_of (tr_end timerange))))
  /\ (forall t r,
         In r [TemporalScraper.Second; TemporalScraper.Minute;
               TemporalScraper.Hour; TemporalScraper.Day] ->
         TemporalScraper.enumerate {| tr_start := t; tr_end := t |} r
         = [TemporalScraper.bucket_of r t])
  /\ (exists urls,
         TemporalScraper.candidates EVEClient.baseurl
           {| tr_start := Calendar.date 2012 7 7;
              tr_end := Calendar.date 2012 7 14 |} = Ok urls
         /\ length urls = 8%nat
         /\ head urls
            = Some "http://lasp.colorado.edu/eve/data_access/evewebdata/quicklook/L0CS/SpWx/2012/20120707_EVE_L0CS_DIODES_1m.txt"
         /\ last urls
            = Some "http://lasp.colorado.edu/eve/data_access/evewebdata/quicklook/L0CS/SpWx/2012/20120714_EVE_L0CS_DIODES_1m.txt")
  /\ TemporalScraper.candidates EVEClient.baseurl
       {| tr_start := Calendar.date 2012 4 21;
          tr_end := Calendar.date 2012 4 21 |}
     = Ok ["http://lasp.colorado.edu/eve/data_access/evewebdata/quicklook/L0CS/SpWx/2012/20120421_EVE_L0CS_DIODES_1m.txt"].
Proof.
  split; [vm_compute; reflexivity |].
  split; [exact enumerate_day |].
  split.
  { intros timerange Hle buckets. subst buckets. rewrite enumerate_day.
    set (d0 := day_of (tr_start timerange)).
    set (d1 := day_of (tr_end timerange)).
    assert (Hd : d0 <= d1).
    { unfold d0, d1, day_of, Calendar.seconds_per_day.
      apply Z.div_le_mono; lia. }
    split; [rewrite length_fmap, length_seqZ; lia |].
    split.
    - rewrite seqZ_cons by lia. reflexivity.
    - rewrite last_lookup, length_fmap, length_seqZ, list_lookup_fmap.
      rewrite lookup_seqZ_lt by lia. cbn. do 2 f_equal. lia. }
  split; [intros t r Hr; apply enumerate_degenerate, Hr |].
  split.
  - eexists. split; [vm_compute; reflexivity |].
    repeat split.
  - vm_compute. reflexivity.
Qed.

Lemma EVE_daily_enumeration_is_inclusive_witness :
  (let buckets :=
     TemporalScraper.enumerate
       {| tr_start := Calendar.date 2012 7 7;
          tr_end := Calendar.datetime 2012 7 14 13 30 0 |}
       TemporalScraper.Day in
   Z.of_nat (length buckets) = 15535 - 15528 + 1
   /\ head buckets = Some (Calendar.date 2012 7 7)
   /\ last buckets = Some (Calendar.date 2012 7 14))
  /\ TemporalScraper.enumerate
       {| tr_start := Calendar.datetime 2012 4 21 9 0 0;
          tr_end := Calendar.datetime 2012 4 21 9 0 0 |}
       TemporalScraper.Hour
     = [Calendar.datetime 2012 4 21 9 0 0].
Proof.
  split.
  - apply (proj1 (proj2 (proj2 EVE_daily_enumeration_is_inclusive))
             {| tr_start := Calendar.date 2012 7 7;
                tr_end := Calendar.datetime 2012 7 14 13 30 0 |}).
    vm_compute. discriminate.
  - apply (proj1 (proj2 (proj2 (proj2 EVE_daily_enumeration_is_inclusive)))
             (Calendar.datetime 2012 4 21 9 0 0) TemporalScraper.Hour).
    simpl. right. right. left. reflexivity.
Defined.

(** ** Validation in [SUVIClient._get_url_for_timerange] *)

Lemma any_map {A} (f : A -> bool) (l : list A) : any (map f l) = existsb f l.
Proof.
  unfold any. induction l as [| a l IH]; cbn; [reflexivity |].
  rewrite IH. reflexivity.
Qed.

Lemma select_wavelength_spec (kwargs : Kwargs) :
  SUVIClient.select_wavelength kwargs
  = if wavelength_unsupported kwargs then Raise ValueError
    else Ok (selected_wavelength kwargs).
Proof.
  unfold SUVIClient.select_wavelength, wavelength_unsupported,
    selected_wavelength.
  destruct (kw_wavelength kwargs) as [[q | wavemin wavemax] |];
    [reflexivity | | reflexivity].
  rewrite any_map. reflexivity.
Qed.

Lemma get_goes_sat_num_spec (now date : Z) :
  SUVIClient._get_goes_sat_num now date
  = if TimeRange_contains
         {| tr_start := Calendar.date 2018 6 1; tr_end := now |} date
    then Ok 16 else Raise ValueError.
Proof.
  unfold SUVIClient._get_goes_sat_num, SUVIClient.suvi_operational.
  cbn [List.filter snd].
  destruct (TimeRange_contains _ date); reflexivity.
Qed.

Lemma check_inputs_spec (now : Z) (timerange : TimeRange) (kwargs : Kwargs) :
  SUVIClient.check_inputs now timerange kwargs
  = if wavelength_unsupported kwargs then Raise ValueError
    else if start_not_operational now timerange then Raise ValueError
    else if satellitenumber_below_16 kwargs then Raise ValueError
    else if level_unsupported kwargs then Raise ValueError
    else Ok (map int_of_Q (selected_wavelength kwargs),
             selected_satellitenumber kwargs,
             SUVIClient.level_str kwargs).
Proof.
  unfold SUVIClient.check_inputs. rewrite select_wavelength_spec.
  destruct (wavelength_unsupported kwargs); [reflexivity |].
  cbn [mbind Result_bind]. rewrite get_goes_sat_num_spec.
  unfold start_not_operational.
  destruct (TimeRange_contains _ (tr_start timerange)); [| reflexivity].
  cbn [mbind Result_bind negb].
  unfold satellitenumber_below_16, selected_satellitenumber, level_unsupported.
  cbv zeta.
  destruct (kw_satellitenumber kwargs) as [n |].
  - destruct (n <? 16)%Z; [reflexivity |].
    destruct (str_in _ _); reflexivity.
  - change (16 <? 16)%Z with false. cbv iota.
    destruct (str_in _ _); reflexivity.
Qed.

Lemma compress_Forall {A} (P : A -> Prop) (data : list A) (selectors : list bool) :
  Forall P data -> Forall P (compress data selectors).
Proof.
  intros H. revert selectors.
  induction H as [| d data Hd _ IH]; intros [| [] selectors]; cbn;
    try constructor; auto.
Qed.

Lemma selected_waves_supported (kwargs : Kwargs) :
  wavelength_unsupported kwargs = false ->
  Forall (fun wave => Z_in wave SUVIClient.supported_waves = true)
         (map int_of_Q (selected_wavelength kwargs)).
Proof.
  unfold wavelength_unsupported, selected_wavelength.
  destruct (kw_wavelength kwargs) as [[q | wavemin wavemax] |]; intros H.
  - apply negb_false_iff in H. repeat constructor. exact H.
  - rewrite map_map. apply Forall_map. apply compress_Forall.
    repeat constructor.
  - repeat constructor.
Qed.

Lemma assign_search_pattern_bound
    (level : string) (wave : Z) (prev : option string) :
  str_in level SUVIClient.supported_levels = true ->
  Z_in wave SUVIClient.supported_waves = true ->
  exists sp, SUVIClient.assign_search_pattern level wave prev = Some sp.
Proof.
  intros Hlevel Hwave.
  assert (Hl : level = "2" \/ level = "1b").
  { unfold str_in, SUVIClient.supported_levels in Hlevel. cbn in Hlevel.
    rewrite orb_false_r in Hlevel. apply orb_true_iff in Hlevel.
    destruct Hlevel as [H | H]; apply String.eqb_eq in H; auto. }
  assert (Hw : In wave SUVIClient.supported_waves).
  { unfold Z_in in Hwave. apply existsb_exists in Hwave.
    destruct Hwave as (w & Hin & Heq). apply Z.eqb_eq in Heq. subst w.
    exact Hin. }
  destruct Hl as [-> | ->].
  - eexists. reflexivity.
  - cbn in Hw.
    destruct Hw as [<- | [<- | [<- | [<- | [<- | [<- | []]]]]]];
      eexists; reflexivity.
Qed.

Section Listing.

Context {Meta : Type}.
Variable filelist : Scraper -> TimeRange -> list string * option (list Meta).

Lemma SUVI_loop_body_returns
    (timerange : TimeRange) (level : string) (satellitenumber wave : Z)
    (st : SUVIClient.LoopState) :
  str_in level SUVIClient.supported_levels = true ->
  Z_in wave SUVIClient.supported_waves = true ->
  exists st',
    SUVIClient.loop_body filelist timerange level satellitenumber st wave
    = Ok st'.
Proof.
  intros Hlevel Hwave.
  unfold SUVIClient.loop_body, SUVIClient.scraper_for.
  destruct (assign_search_pattern_bound level wave
              (SUVIClient.search_pattern st) Hlevel Hwave) as [sp Hsp].
  rewrite Hsp. cbn [mbind Result_bind mret Result_ret].
  destruct (filelist _ timerange) as [url [urlmeta |]];
    eexists; reflexivity.
Qed.

Lemma SUVI_loop_returns
    (timerange : TimeRange) (level : string) (satellitenumber : Z)
    (waves : list Z) :
  str_in level SUVIClient.supported_levels = true ->
  Forall (fun wave => Z_in wave SUVIClient.supported_waves = true) waves ->
  forall st,
  exists st',
    for_each (SUVIClient.loop_body filelist timerange level satellitenumber)
      waves st = Ok st'.
Proof.
  intros Hlevel Hwaves.
  induction Hwaves as [| wave waves Hwave _ IH]; intros st;
    cbn [for_each].
  - eexists. reflexivity.
  - destruct (SUVI_loop_body_returns timerange level satellitenumber wave st
                Hlevel Hwave) as [st1 ->].
    cbn [mbind Result_bind]. apply IH.
Qed.

(** The function raises exactly when the statements before the loop do,
    and with the same exception. *)
Lemma SUVI_raises_in_check_inputs
    (now : Z) (timerange : TimeRange) (kwargs : Kwargs) (e : Exn) :
  SUVIClient._get_url_for_timerange filelist now timerange kwargs = Raise e
  <-> SUVIClient.check_inputs now timerange kwargs = Raise e.
Proof.
  unfold SUVIClient._get_url_for_timerange.
  pose proof (check_inputs_spec now timerange kwargs) as Hspec.
  destruct (SUVIClient.check_inputs now timerange kwargs)
    as [[[waves satellitenumber] level] | e'] eqn:Hcheck; cbn.
  - split; [| discriminate]. 
    destruct (wavelength_unsupported kwargs) eqn:Hw; [discriminate |].
    destruct (start_not_operational now timerange); [discriminate |].
    destruct (satellitenumber_below_16 kwargs); [discriminate |].
    destruct (level_unsupported kwargs) eqn:Hl; [discriminate |].
    injection Hspec as -> -> ->.
    apply negb_false_iff in Hl.
    destruct (SUVI_loop_returns timerange (SUVIClient.level_str kwargs)
                (selected_satellitenumber kwargs) _ Hl
                (selected_waves_supported kwargs Hw)
                {| SUVIClient.search_pattern := None;
                   SUVIClient.urls := [];
                   SUVIClient.urlsmeta := [] |}) as [st' ->].
    cbn. discriminate.
  - split; intros H; injection H as ->; reflexivity.
Qed.

End Listing.

(** C10, as the code has it.  [SUVIClient._get_url_for_timerange]
    raises [ValueError] in the checks that precede the loop, so before
    any directory is listed and whatever the listing, whenever the
    integer part of a wavelength [Quantity] is none of 94, 131, 171,
    195, 284, 304 (or a wavelength range contains none of them),
    whenever a satellite number below 16 is given, whenever the string
    form of the level is neither "2" nor "1b", and whenever no satellite
    number is given and the range starts outside 2018-06-01 .. now.  When
    no satellite number is given, or the range starts within
    2018-06-01 .. now, the checks raise [ValueError] in these cases
    only. *)
Theorem SUVI_get_url_raises_ValueError_on_invalid_input
    {Meta : Type}
    (filelist : Scraper -> TimeRange -> list string * option (list Meta))
    (now : Z) (timerange : TimeRange) (kwargs : Kwargs) :
  (SUVIClient.check_inputs now timerange kwargs = Raise ValueError ->
   SUVIClient._get_url_for_timerange filelist now timerange kwargs
   = Raise ValueError)
  /\ (wavelength_unsupported kwargs = true
      \/ satellitenumber_below_16 kwargs = true
      \/ level_unsupported kwargs = true
      \/ (kw_satellitenumber kwargs = None
          /\ start_not_operational now timerange = true) ->
      SUVIClient.check_inputs now timerange kwargs = Raise ValueError
      /\ SUVIClient._get_url_for_timerange filelist now timerange kwargs
         = Raise ValueError)
  /\ (kw_satellitenumber kwargs = None
      \/ start_not_operational now timerange = false ->
      SUVIClient.check_inputs now timerange kwargs = Raise ValueError ->
      wavelength_unsupported kwargs = true
      \/ satellitenumber_below_16 kwargs = true
      \/ level_unsupported kwargs = true
      \/ (kw_satellitenumber kwargs = None
          /\ start_not_operational now timerange = true)).
Proof.
  split; [intros H; apply SUVI_raises_in_check_inputs, H |].
  split.
  - intros H.
    assert (Hcheck : SUVIClient.check_inputs now timerange kwargs
                     = Raise ValueError).
    { rewrite check_inputs_spec.
      destruct (wavelength_unsupported kwargs); [reflexivity |].
      destruct (start_not_operational now timerange); [reflexivity |].
      destruct (satellitenumber_below_16 kwargs); [reflexivity |].
      destruct (level_unsupported kwargs); [reflexivity |].
      destruct H as [H | [H | [H | [_ H]]]]; discriminate H. }
    split; [exact Hcheck | apply SUVI_raises_in_check_inputs, Hcheck].
  - intros Hregion H. rewrite check_inputs_spec in H.
    destruct (wavelength_unsupported kwargs); [left; reflexivity |].
    destruct (start_not_operational now timerange).
    + destruct Hregion as [Hnone | Hop]; [| discriminate Hop].
      right. right. right. split; [exact Hnone | reflexivity].
    + destruct (satellitenumber_below_16 kwargs);
        [right; left; reflexivity |].
      destruct (level_unsupported kwargs);
        [right; right; left; reflexivity | discriminate H].
Qed.

Lemma SUVI_get_url_raises_ValueError_on_invalid_input_witness :
  (SUVIClient.check_inputs (Calendar.date 2020 1 1)
     {| tr_start := Calendar.date 2019 1 1; tr_end := Calendar.date 2019 1 2 |}
     {| kw_wavelength := Some (WQuantity 100);
        kw_satellitenumber := None;
        kw_level := None |}
   = Raise ValueError
   /\ SUVIClient._get_url_for_timerange echo_filelist (Calendar.date 2020 1 1)
        {| tr_start := Calendar.date 2019 1 1;
           tr_end := Calendar.date 2019 1 2 |}
        {| kw_wavelength := Some (WQuantity 100);
           kw_satellitenumber := None;
           kw_level := None |}
      = Raise ValueError)
  /\ (wavelength_unsupported
        {| kw_wavelength := None; kw_satellitenumber := None;
           kw_level := Some (LInt 3) |} = true
      \/ satellitenumber_below_16
           {| kw_wavelength := None; kw_satellitenumber := None;
              kw_level := Some (LInt 3) |} = true
      \/ level_unsupported
           {| kw_wavelength := None; kw_satellitenumber := None;
              kw_level := Some (LInt 3) |} = true
      \/ (kw_satellitenumber
            {| kw_wavelength := None; kw_satellitenumber := None;
               kw_level := Some (LInt 3) |} = None
          /\ start_not_operational (Calendar.date 2020 1 1)
               {| tr_start := Calendar.date 2019 1 1;
                  tr_end := Calendar.date 2019 1 2 |} = true))
  /\ SUVIClient._get_url_for_timerange echo_filelist (Calendar.date 2020 1 1)
       {| tr_start := Calendar.date 2017 1 1; tr_end := Calendar.date 2017 1 2 |}
       {| kw_wavelength := None; kw_satellitenumber := None;
          kw_level := None |}
     = Raise ValueError.
Proof.
  split; [| split].
  - apply (proj1 (proj2
             (SUVI_get_url_raises_ValueError_on_invalid_input
                echo_filelist _ _ _))).
    left. vm_compute. reflexivity.
  - apply (proj2 (proj2
             (SUVI_get_url_raises_ValueError_on_invalid_input
                echo_filelist (Calendar.date 2020 1 1)
                {| tr_start := Calendar.date 2019 1 1;
                   tr_end := Calendar.date 2019 1 2 |}
                {| kw_wavelength := None; kw_satellitenumber := None;
                   kw_level := Some (LInt 3) |}))).
    + left. reflexivity.
    + vm_compute. reflexivity.
  - apply (proj1
             (SUVI_get_url_raises_ValueError_on_invalid_input
                echo_filelist _ _ _)).
    vm_compute. reflexivity.
Defined.

(** C10 as stated fails in both directions.  With no keyword argument
    and a range that starts after [now], none of the listed cases holds
    and the function raises [ValueError]: the operational range of the
    satellite ends at [now].  With the wavelength 94.5 Angstrom, which is
    none of the supported wavelengths, the function does not raise: the
    wavelength is truncated to 94 and the level-2 pattern of band 94 is
    searched. *)
Lemma SUVI_raising_differs_from_the_stated_cases :
  (validation_fails_as_stated
     {| tr_start := Calendar.date 2021 1 1; tr_end := Calendar.date 2021 1 2 |}
     {| kw_wavelength := None; kw_satellitenumber := None; kw_level := None |}
   = false
   /\ SUVIClient._get_url_for_timerange echo_filelist (Calendar.date 2020 1 1)
        {| tr_start := Calendar.date 2021 1 1;
           tr_end := Calendar.date 2021 1 2 |}
        {| kw_wavelength := None; kw_satellitenumber := None;
           kw_level := None |}
      = Raise ValueError)
  /\ (validation_fails_as_stated
        {| tr_start := Calendar.date 2019 1 1; tr_end := Calendar.date 2019 1 2 |}
        {| kw_wavelength := Some (WQuantity (189 # 2));
           kw_satellitenumber := None; kw_level := None |}
      = true
      /\ fst <$> SUVIClient._get_url_for_timerange echo_filelist
                   (Calendar.date 2020 1 1)
                   {| tr_start := Calendar.date 2019 1 1;
                      tr_end := Calendar.date 2019 1 2 |}
                   {| kw_wavelength := Some (WQuantity (189 # 2));
                      kw_satellitenumber := None; kw_level := None |}
         = Ok [suvi_l2_url 16 94 94]).
Proof. repeat split; vm_compute; reflexivity. Qed.

(** The default of [kwargs.get("satellitenumber", ...)] is evaluated
    before the lookup, so a range that starts before 2018-06-01 makes
    the function raise even when a satellite number is given, where the
    comment of the code reads "use the given satellite number or choose
    the best one". *)
Remark SUVI_satellite_lookup_precedes_the_given_number :
  SUVIClient._get_url_for_timerange echo_filelist (Calendar.date 2020 1 1)
    {| tr_start := Calendar.date 2018 1 1; tr_end := Calendar.date 2018 1 2 |}
    {| kw_wavelength := None; kw_satellitenumber := Some 16;
       kw_level := None |}
  = Raise ValueError.
Proof. vm_compute. reflexivity. Qed.

(** * Further properties of the clients *)

(** ** The order of the attributes in a query *)

Lemma forallb_Permutation {A} (f : A -> bool) (l l' : list A) :
  Permutation l l' -> forallb f l = forallb f l'.
Proof.
  induction 1 as [| a l l' _ IH | a b l | l l' l'' _ IH1 _ IH2]; cbn.
  - reflexivity.
  - rewrite IH. reflexivity.
  - destruct (f a), (f b); reflexivity.
  - congruence.
Qed.

Lemma existsb_Permutation {A} (f : A -> bool) (l l' : list A) :
  Permutation l l' -> existsb f l = existsb f l'.
Proof.
  induction 1 as [| a l l' _ IH | a b l | l l' l'' _ IH1 _ IH2]; cbn.
  - reflexivity.
  - rewrite IH. reflexivity.
  - destruct (f a), (f b); reflexivity.
  - congruence.
Qed.

Lemma check_attr_types_Permutation
    (q q' : list Attr) (required optional : gset AttrType) :
  Permutation q q' ->
  GenericClient.check_attr_types_in_query q required optional
  = GenericClient.check_attr_types_in_query q' required optional.
Proof.
  intros H. unfold GenericClient.check_attr_types_in_query.
  assert (Hset : (list_to_set (attr_type <$> q) : gset AttrType)
                 = list_to_set (attr_type <$> q')).
  { apply list_to_set_perm_L, fmap_Permutation, H. }
  rewrite Hset. reflexivity.
Qed.

Lemma suvi_count_Permutation (q q' : list Attr) :
  Permutation q q' -> forall n, suvi_count q n = suvi_count q' n.
Proof.
  unfold suvi_count.
  induction 1 as [| a l l' _ IH | a b l | l l' l'' _ IH1 _ IH2];
    intros n; cbn [fold_left].
  - reflexivity.
  - apply IH.
  - f_equal.
    destruct (isinstance b TInstrument && _), (isinstance a TInstrument && _);
      lia.
  - rewrite IH1. apply IH2.
Qed.

(** X1.  The answer of each client does not depend on the order of the
    attributes in the query. *)
Theorem can_handle_query_ignores_attribute_order (q q' : list Attr) :
  Permutation q q' ->
  EVEClient._can_handle_query q = EVEClient._can_handle_query q'
  /\ GBMClient._can_handle_query q = GBMClient._can_handle_query q'
  /\ XRSClient._can_handle_query q = XRSClient._can_handle_query q'
  /\ SUVIClient._can_handle_query q = SUVIClient._can_handle_query q'.
Proof.
  intros H.
  rewrite !EVE_can_handle_query_spec, !GBM_can_handle_query_spec,
    !XRS_can_handle_query_spec, !SUVI_can_handle_query_spec.
  rewrite (check_attr_types_Permutation q q' _ _ H).
  rewrite (forallb_Permutation (instrument_is "eve") q q' H).
  rewrite (forallb_Permutation level_is_zero q q' H).
  rewrite (existsb_Permutation (is_instrument_named ["gbm"]) q q' H).
  rewrite (existsb_Permutation (is_instrument_named ["xrs"; "goes"]) q q' H).
  rewrite (forallb_Permutation (named_in GBMClient.chkattr) q q' H).
  rewrite (forallb_Permutation (named_in XRSClient.chkattr) q q' H).
  rewrite (forallb_Permutation (type_in _) q q' H).
  rewrite (suvi_count_Permutation q q' H 0).
  repeat split; reflexivity.
Qed.

Lemma can_handle_query_ignores_attribute_order_witness :
  EVEClient._can_handle_query [Level (VInt 0); Instrument "gbm"; Time 0 1]
  = EVEClient._can_handle_query [Time 0 1; Instrument "gbm"; Level (VInt 0)]
  /\ GBMClient._can_handle_query [Level (VInt 0); Instrument "gbm"; Time 0 1]
     = GBMClient._can_handle_query [Time 0 1; Instrument "gbm"; Level (VInt 0)]
  /\ XRSClient._can_handle_query [Level (VInt 0); Instrument "gbm"; Time 0 1]
     = XRSClient._can_handle_query [Time 0 1; Instrument "gbm"; Level (VInt 0)]
  /\ SUVIClient._can_handle_query [Level (VInt 0); Instrument "gbm"; Time 0 1]
     = SUVIClient._can_handle_query [Time 0 1; Instrument "gbm"; Level (VInt 0)].
Proof.
  apply can_handle_query_ignores_attribute_order.
  apply (Permutation_rev [Level (VInt 0); Instrument "gbm"; Time 0 1]).
Defined.

(** ** Queries that two clients accept *)

Lemma str_in_In (name : string) (names : list string) :
  str_in name names = true <-> In name names.
Proof.
  unfold str_in. rewrite existsb_exists. split.
  - intros (n & Hin & Heq). apply String.eqb_eq in Heq. subst n. exact Hin.
  - intros Hin. exists name. split; [exact Hin | apply String.eqb_refl].
Qed.

Lemma named_instrument_present (names : list string) (q : list Attr) :
  existsb (is_instrument_named names) q = true ->
  exists v, In (Instrument v) q /\ In (PyStr.lower v) names.
Proof.
  intros H. apply existsb_exists in H. destruct H as (x & Hx & Hnamed).
  destruct x as [| v | | | | | | |]; try discriminate Hnamed.
  exists v. split; [exact Hx |]. apply str_in_In. exact Hnamed.
Qed.

Lemma suvi_count_unchanged (q : list Attr) (n : Z) :
  existsb (is_instrument_named ["suvi"]) q = false -> suvi_count q n = n.
Proof.
  revert n. induction q as [| x q IH]; intros n H; [reflexivity |].
  cbn [existsb] in H. apply orb_false_iff in H. destruct H as [Hx Hq].
  unfold suvi_count in *. cbn [fold_left].
  destruct x as [| v | | | | | | |]; try (apply IH, Hq).
  unfold is_instrument_named, str_in in Hx. cbn in Hx.
  rewrite orb_false_r in Hx.
  replace (isinstance (Instrument v) TInstrument) with true by reflexivity.
  cbn [andb]. rewrite Hx. apply IH, Hq.
Qed.

Lemma SUVI_accepts_named (q : list Attr) :
  SUVIClient._can_handle_query q = true ->
  exists v, In (Instrument v) q /\ In (PyStr.lower v) ["suvi"].
Proof.
  rewrite SUVI_can_handle_query_spec. intros H.
  apply andb_true_iff in H. destruct H as [_ Hcount].
  apply named_instrument_present.
  destruct (existsb (is_instrument_named ["suvi"]) q) eqn:Hex;
    [reflexivity |].
  rewrite (suvi_count_unchanged q 0 Hex) in Hcount. discriminate Hcount.
Qed.

Lemma EVE_accepts_only_eve (q : list Attr) (v : string) :
  EVEClient._can_handle_query q = Ok true ->
  In (Instrument v) q -> PyStr.lower v = "eve".
Proof.
  rewrite EVE_can_handle_query_spec. intros H Hin.
  injection H as H. apply andb_true_iff in H. destruct H as [H _].
  apply andb_true_iff in H. destruct H as [_ H].
  rewrite forallb_forall in H. specialize (H _ Hin).
  apply String.eqb_eq in H. exact H.
Qed.

(** X2.  A query that [EVEClient] accepts is accepted by none of the
    other clients.  When all the Instrument attributes of a query have
    the same value up to letter case, at most one of the four clients
    accepts it.  Without that proviso two clients can accept the same
    query: Instrument('gbm') with Instrument('xrs') is accepted by
    [GBMClient] and by [XRSClient]. *)
Theorem clients_accept_disjoint_queries (q : list Attr) :
  (EVEClient._can_handle_query q = Ok true ->
   GBMClient._can_handle_query q = false
   /\ XRSClient._can_handle_query q = false
   /\ SUVIClient._can_handle_query q = false)
  /\ ((forall v v',
          In (Instrument v) q -> In (Instrument v') q ->
          PyStr.lower v = PyStr.lower v') ->
      (GBMClient._can_handle_query q = true ->
       XRSClient._can_handle_query q = false
       /\ SUVIClient._can_handle_query q = false)
      /\ (XRSClient._can_handle_query q = true ->
          SUVIClient._can_handle_query q = false))
  /\ GBMClient._can_handle_query [Instrument "gbm"; Instrument "xrs"] = true
  /\ XRSClient._can_handle_query [Instrument "gbm"; Instrument "xrs"] = true.
Proof.
  assert (Hgbm : GBMClient._can_handle_query q = true ->
                 exists v, In (Instrument v) q /\ In (PyStr.lower v) ["gbm"]).
  { rewrite GBM_can_handle_query_spec. intros H.
    apply andb_true_iff in H. apply named_instrument_present, H. }
  assert (Hxrs : XRSClient._can_handle_query q = true ->
                 exists v, In (Instrument v) q
                           /\ In (PyStr.lower v) ["xrs"; "goes"]).
  { rewrite XRS_can_handle_query_spec. intros H.
    apply andb_true_iff in H. apply named_instrument_present, H. }
  pose proof (SUVI_accepts_named q) as Hsuvi.
  split; [| split; [| split; reflexivity]].
  - intros Heve. repeat split; apply not_true_is_false; intros H.
    + apply Hgbm in H. destruct H as (v & Hin & Hv).
      rewrite (EVE_accepts_only_eve q v Heve Hin) in Hv.
      cbn in Hv. destruct Hv as [Hv | []]. discriminate Hv.
    + apply Hxrs in H. destruct H as (v & Hin & Hv).
      rewrite (EVE_accepts_only_eve q v Heve Hin) in Hv.
      cbn in Hv. destruct Hv as [Hv | [Hv | []]]; discriminate Hv.
    + apply Hsuvi in H. destruct H as (v & Hin & Hv).
      rewrite (EVE_accepts_only_eve q v Heve Hin) in Hv.
      cbn in Hv. destruct Hv as [Hv | []]. discriminate Hv.
  - intros Hsame. split.
    + intros H. apply Hgbm in H. destruct H as (v & Hin & Hv).
      split; apply not_true_is_false; intros H'.
      * apply Hxrs in H'. destruct H' as (v' & Hin' & Hv').
        rewrite (Hsame v v' Hin Hin') in Hv. cbn in Hv, Hv'.
        destruct Hv as [Hv | []].
        destruct Hv' as [Hv' | [Hv' | []]]; congruence.
      * apply Hsuvi in H'. destruct H' as (v' & Hin' & Hv').
        rewrite (Hsame v v' Hin Hin') in Hv. cbn in Hv, Hv'.
        destruct Hv as [Hv | []]. destruct Hv' as [Hv' | []]. congruence.
    + intros H. apply Hxrs in H. destruct H as (v & Hin & Hv).
      apply not_true_is_false; intros H'.
      apply Hsuvi in H'. destruct H' as (v' & Hin' & Hv').
      rewrite (Hsame v v' Hin Hin') in Hv. cbn in Hv, Hv'.
      destruct Hv' as [Hv' | []].
      destruct Hv as [Hv | [Hv | []]]; congruence.
Qed.

Lemma clients_accept_disjoint_queries_witness :
  (GBMClient._can_handle_query
     [Time 0 1; Instrument "eve"; Level (VStr "0cs")] = false
   /\ XRSClient._can_handle_query
        [Time 0 1; Instrument "eve"; Level (VStr "0cs")] = false
   /\ SUVIClient._can_handle_query
        [Time 0 1; Instrument "eve"; Level (VStr "0cs")] = false)
  /\ SUVIClient._can_handle_query [Time 0 1; Instrument "GOES"] = false.
Proof.
  split.
  - apply (proj1 (clients_accept_disjoint_queries
                    [Time 0 1; Instrument "eve"; Level (VStr "0cs")])).
    vm_compute. reflexivity.
  - apply (proj2 (proj1 (proj2 (clients_accept_disjoint_queries
                    [Time 0 1; Instrument "GOES"]))
             ltac:(simpl; intros v v' [H | [H | []]] [H' | [H' | []]];
                   congruence))).
    vm_compute. reflexivity.
Defined.

(** ** The Instrument attributes of a query at [SUVIClient] *)

Lemma suvi_count_length (q : list Attr) (n : Z) :
  suvi_count q n
  = n + Z.of_nat (length (List.filter (is_instrument_named ["suvi"]) q)).
Proof.
  revert n. unfold suvi_count.
  induction q as [| x q IH]; intros n; cbn [fold_left List.filter].
  - cbn. lia.
  - rewrite IH.
    destruct x as [| v | | | | | | |];
      try (rewrite andb_false_r;
           match goal with
           | |- context [is_instrument_named ?names ?x] =>
               change (is_instrument_named names x) with false
           end; lia).
    replace (isinstance (Instrument v) TInstrument) with true by reflexivity.
    replace (is_instrument_named ["suvi"] (Instrument v))
      with (String.eqb (PyStr.lower v) "suvi")
      by (unfold is_instrument_named, str_in; cbn;
          rewrite orb_false_r; reflexivity).
    cbn [andb]. destruct (String.eqb (PyStr.lower v) "suvi"); cbn [length]; lia.
Qed.

Lemma is_suvi_instrument (v : string) :
  is_instrument_named ["suvi"] (Instrument v) = String.eqb (PyStr.lower v) "suvi".
Proof.
  unfold is_instrument_named, str_in. cbn. rewrite orb_false_r. reflexivity.
Qed.

(** X3.  [SUVIClient] accepts a query exactly when every attribute is of
    a required or optional kind and exactly one attribute is an
    Instrument whose value is 'suvi' up to letter case.  So a query with
    two such Instrument attributes is rejected, and an Instrument
    attribute of another name does not change the answer. *)
Theorem SUVI_accepts_exactly_one_suvi_instrument :
  (forall q,
      SUVIClient._can_handle_query q
      = forallb (type_in (SUVIClient.required ∪ SUVIClient.optional)) q
        && (length (List.filter (is_instrument_named ["suvi"]) q) =? 1)%nat)
  /\ (forall q1 q2 q3 v v',
         PyStr.lower v = "suvi" -> PyStr.lower v' = "suvi" ->
         SUVIClient._can_handle_query
           (q1 ++ Instrument v :: q2 ++ Instrument v' :: q3) = false)
  /\ (forall q1 q2 v,
         PyStr.lower v <> "suvi" ->
         SUVIClient._can_handle_query (q1 ++ Instrument v :: q2)
         = SUVIClient._can_handle_query (q1 ++ q2)).
Proof.
  assert (Hspec : forall q,
    SUVIClient._can_handle_query q
    = forallb (type_in (SUVIClient.required ∪ SUVIClient.optional)) q
      && (length (List.filter (is_instrument_named ["suvi"]) q) =? 1)%nat).
  { intros q. rewrite SUVI_can_handle_query_spec, suvi_count_length.
    f_equal. apply eq_true_iff_eq. rewrite Z.eqb_eq, Nat.eqb_eq. lia. }
  split; [exact Hspec |]. split.
  - intros q1 q2 q3 v v' Hv Hv'. rewrite Hspec.
    apply andb_false_iff. right. apply Nat.eqb_neq.
    rewrite List.filter_app. cbn [List.filter].
    rewrite is_suvi_instrument, Hv. cbn [String.eqb].
    rewrite List.filter_app. cbn [List.filter].
    rewrite is_suvi_instrument, Hv'.
    rewrite !length_app. cbn. rewrite !length_app. cbn. lia.
  - intros q1 q2 v Hv. rewrite !Hspec.
    rewrite forallb_insert, !List.filter_app, forallb_app. cbn [List.filter].
    rewrite is_suvi_instrument.
    destruct (String.eqb_spec (PyStr.lower v) "suvi") as [Heq | _];
      [contradiction |].
    replace (type_in (SUVIClient.required ∪ SUVIClient.optional) (Instrument v))
      with true by (vm_compute; reflexivity).
    reflexivity.
Qed.

Lemma SUVI_accepts_exactly_one_suvi_instrument_witness :
  SUVIClient._can_handle_query
    [Time 0 1; Instrument "suvi"; Wavelength 171 171; Instrument "SUVI"] = false
  /\ SUVIClient._can_handle_query [Time 0 1; Instrument "eve"; Instrument "suvi"]
     = SUVIClient._can_handle_query [Time 0 1; Instrument "suvi"].
Proof.
  split.
  - apply (proj1 (proj2 SUVI_accepts_exactly_one_suvi_instrument)
             [Time 0 1] [Wavelength 171 171] [] "suvi" "SUVI");
      reflexivity.
  - apply (proj2 (proj2 SUVI_accepts_exactly_one_suvi_instrument)
             [Time 0 1] [Instrument "suvi"] "eve").
    simpl. discriminate.
Defined.

(** ** The helpers [_check_detector] and [_check_type] *)







(** ** The satellite for a date *)

(** X6.  Called with a time object, as [_get_url_for_timerange] calls
    it with the start of the range, [_get_goes_sat_num] returns 16, and
    nothing else, exactly for the instants from 2018-06-01 to [now],
    both included; for every other instant it raises [ValueError].  It
    never returns 17. *)
Theorem get_goes_sat_num_is_16_while_operational (now date : Z) :
  (forall n,
      SUVIClient._get_goes_sat_num now date = Ok n ->
      n = 16 /\ Calendar.date 2018 6 1 <= date <= now)
  /\ (Calendar.date 2018 6 1 <= date <= now ->
      SUVIClient._get_goes_sat_num now date = Ok 16)
  /\ (forall e,
         SUVIClient._get_goes_sat_num now date = Raise e ->
         e = ValueError /\ (date < Calendar.date 2018 6 1 \/ now < date)).
Proof.
  rewrite get_goes_sat_num_spec. unfold TimeRange_contains. cbn [tr_start tr_end].
  destruct (Z.leb_spec (Calendar.date 2018 6 1) date) as [Hlo | Hlo];
    destruct (Z.leb_spec date now) as [Hhi | Hhi]; cbn [andb];
    (split; [| split]);
    try (intros n Hn; first [discriminate Hn | injection Hn as <-]; lia);
    try (intros H; first [reflexivity | lia]);
    try (intros e He; first [discriminate He | injection He as <-];
         split; [reflexivity | lia]).
Qed.

Lemma get_goes_sat_num_is_16_while_operational_witness :
  SUVIClient._get_goes_sat_num (Calendar.date 2020 1 1) (Calendar.date 2018 6 1)
  = Ok 16
  /\ (ValueError = ValueError
      /\ (Calendar.date 2018 5 31 < Calendar.date 2018 6 1
          \/ Calendar.date 2020 1 1 < Calendar.date 2018 5 31)).
Proof.
  split.
  - apply (proj1 (proj2 (get_goes_sat_num_is_16_while_operational
                           (Calendar.date 2020 1 1) (Calendar.date 2018 6 1)))).
    vm_compute. split; discriminate.
  - apply (proj2 (proj2 (get_goes_sat_num_is_16_while_operational
                           (Calendar.date 2020 1 1) (Calendar.date 2018 5 31)))).
    vm_compute. reflexivity.
Defined.

(** ** What [SUVIClient._get_url_for_timerange] returns *)

Lemma scraper_for_bound
    (level : string) (satellitenumber wave : Z) (prev : option string) :
  str_in level SUVIClient.supported_levels = true ->
  Z_in wave SUVIClient.supported_waves = true ->
  exists sc,
    suvi_scraper level satellitenumber wave = Some sc
    /\ SUVIClient.scraper_for level satellitenumber wave prev = Ok sc.
Proof.
  intros Hlevel Hwave.
  assert (Hl : level = "2" \/ level = "1b").
  { apply str_in_In in Hlevel. cbn in Hlevel.
    destruct Hlevel as [<- | [<- | []]]; auto. }
  assert (Hw : In wave SUVIClient.supported_waves).
  { unfold Z_in in Hwave. apply existsb_exists in Hwave.
    destruct Hwave as (w & Hin & Heq). apply Z.eqb_eq in Heq. subst w.
    exact Hin. }
  destruct Hl as [-> | ->].
  - eexists. split; reflexivity.
  - cbn in Hw.
    destruct Hw as [<- | [<- | [<- | [<- | [<- | [<- | []]]]]]];
      eexists; split; reflexivity.
Qed.

Section Composition.

Context {Meta : Type}.
Variable filelist : Scraper -> TimeRange -> list string * option (list Meta).

Lemma SUVI_loop_body_composition
    (timerange : TimeRange) (level : string) (satellitenumber wave : Z)
    (st : SUVIClient.LoopState) :
  str_in level SUVIClient.supported_levels = true ->
  Z_in wave SUVIClient.supported_waves = true ->
  exists sp sc,
    suvi_scraper level satellitenumber wave = Some sc
    /\ SUVIClient.loop_body filelist timerange level satellitenumber st wave
       = Ok {| SUVIClient.search_pattern := sp;
               SUVIClient.urls :=
                 SUVIClient.urls st ++ kept_urls (filelist sc timerange);
               SUVIClient.urlsmeta :=
                 SUVIClient.urlsmeta st ++ kept_meta (filelist sc timerange) |}.
Proof.
  intros Hlevel Hwave.
  destruct (scraper_for_bound level satellitenumber wave
              (SUVIClient.search_pattern st) Hlevel Hwave) as (sc & Hsc & Hfor).
  unfold SUVIClient.loop_body. rewrite Hfor.
  cbn [mbind Result_bind].
  eexists _, sc. split; [exact Hsc |].
  unfold kept_urls, kept_meta.
  destruct (filelist sc timerange) as [url [urlmeta |]]; cbn [fst snd].
  - reflexivity.
  - rewrite !app_nil_r. reflexivity.
Qed.

Lemma SUVI_loop_composition
    (timerange : TimeRange) (level : string) (satellitenumber : Z)
    (waves : list Z) :
  str_in level SUVIClient.supported_levels = true ->
  Forall (fun wave => Z_in wave SUVIClient.supported_waves = true) waves ->
  forall st,
  exists sp scrapers,
    Forall2 (fun wave sc => suvi_scraper level satellitenumber wave = Some sc)
      waves scrapers
    /\ for_each (SUVIClient.loop_body filelist timerange level satellitenumber)
         waves st
       = Ok {| SUVIClient.search_pattern := sp;
               SUVIClient.urls :=
                 SUVIClient.urls st
                 ++ concat (map (fun sc => kept_urls (filelist sc timerange))
                              scrapers);
               SUVIClient.urlsmeta :=
                 SUVIClient.urlsmeta st
                 ++ concat (map (fun sc => kept_meta (filelist sc timerange))
                              scrapers) |}.
Proof.
  intros Hlevel Hwaves.
  induction Hwaves as [| wave waves Hwave _ IH]; intros st;
    cbn [for_each].
  - exists (SUVIClient.search_pattern st), []. split; [constructor |].
    cbn. rewrite !app_nil_r. destruct st; reflexivity.
  - destruct (SUVI_loop_body_composition timerange level satellitenumber
                wave st Hlevel Hwave) as (sp1 & sc & Hsc & ->).
    cbn [mbind Result_bind].
    destruct (IH {| SUVIClient.search_pattern := sp1;
                    SUVIClient.urls :=
                      SUVIClient.urls st ++ kept_urls (filelist sc timerange);
                    SUVIClient.urlsmeta :=
                      SUVIClient.urlsmeta st
                      ++ kept_meta (filelist sc timerange) |})
      as (sp & scrapers & Hall & ->).
    exists sp, (sc :: scrapers). split; [constructor; assumption |].
    cbn [SUVIClient.urls SUVIClient.urlsmeta map concat].
    rewrite <- !app_assoc. reflexivity.
Qed.

Lemma SUVI_get_url_composition
    (now : Z) (timerange : TimeRange) (kwargs : Kwargs) :
  wavelength_unsupported kwargs = false ->
  start_not_operational now timerange = false ->
  satellitenumber_below_16 kwargs = false ->
  level_unsupported kwargs = false ->
  exists scrapers,
    Forall2 (fun wave sc =>
               suvi_scraper (SUVIClient.level_str kwargs)
                 (selected_satellitenumber kwargs) wave = Some sc)
      (map int_of_Q (selected_wavelength kwargs)) scrapers
    /\ SUVIClient._get_url_for_timerange filelist now timerange kwargs
       = Ok (concat (map (fun sc => kept_urls (filelist sc timerange)) scrapers),
             concat (map (fun sc => kept_meta (filelist sc timerange)) scrapers)).
Proof.
  intros Hw Hop Hsat Hlevel.
  unfold SUVIClient._get_url_for_timerange.
  rewrite check_inputs_spec, Hw, Hop, Hsat, Hlevel.
  cbn [mbind Result_bind].
  apply negb_false_iff in Hlevel.
  destruct (SUVI_loop_composition timerange (SUVIClient.level_str kwargs)
              (selected_satellitenumber kwargs) _ Hlevel
              (selected_waves_supported kwargs Hw)
              {| SUVIClient.search_pattern := None;
                 SUVIClient.urls := [];
                 SUVIClient.urlsmeta := [] |})
    as (sp & scrapers & Hall & ->).
  exists scrapers. split; [exact Hall | reflexivity].
Qed.

End Composition.

(** X7.  On valid input [SUVIClient._get_url_for_timerange] returns, in
    the order of the selected wavelengths, the concatenation of the URLs
    and of the metadata of the listings of one scraper per wavelength.
    A listing whose metadata is [None] contributes neither URLs nor
    metadata. *)
Theorem SUVI_get_url_concatenates_the_listings
    {Meta : Type}
    (filelist : Scraper -> TimeRange -> list string * option (list Meta))
    (now : Z) (timerange : TimeRange) (kwargs : Kwargs) :
  wavelength_unsupported kwargs = false ->
  start_not_operational now timerange = false ->
  satellitenumber_below_16 kwargs = false ->
  level_unsupported kwargs = false ->
  exists scrapers,
    Forall2 (fun wave sc =>
               suvi_scraper (SUVIClient.level_str kwargs)
                 (selected_satellitenumber kwargs) wave = Some sc)
      (map int_of_Q (selected_wavelength kwargs)) scrapers
    /\ SUVIClient._get_url_for_timerange filelist now timerange kwargs
       = Ok (concat (map (fun sc => kept_urls (filelist sc timerange)) scrapers),
             concat (map (fun sc => kept_meta (filelist sc timerange)) scrapers)).
Proof. apply SUVI_get_url_composition. Qed.

Lemma SUVI_get_url_concatenates_the_listings_witness :
  exists scrapers,
    Forall2 (fun wave sc => suvi_scraper "1b" 17 wave = Some sc)
      [171; 195] scrapers
    /\ SUVIClient._get_url_for_timerange
         (fun sc _ => if String.eqb (sc_pattern sc) ""
                      then ([sc_pattern sc], None)
                      else ([sc_pattern sc], Some [sc]))
         (Calendar.date 2020 1 1)
         {| tr_start := Calendar.date 2019 1 1; tr_end := Calendar.date 2019 1 2 |}
         {| kw_wavelength := Some (WRange 150 200);
            kw_satellitenumber := Some 17;
            kw_level := Some (LStr "1b") |}
       = Ok (concat (map (fun sc =>
                            kept_urls (if String.eqb (sc_pattern sc) ""
                                       then ([sc_pattern sc], None)
                                       else ([sc_pattern sc], Some [sc])))
                         scrapers),
             concat (map (fun sc =>
                            kept_meta (if String.eqb (sc_pattern sc) ""
                                       then ([sc_pattern sc], None)
                                       else ([sc_pattern sc], Some [sc])))
                         scrapers)).
Proof.
  apply (SUVI_get_url_concatenates_the_listings
           (fun sc _ => if String.eqb (sc_pattern sc) ""
                        then ([sc_pattern sc], None)
                        else ([sc_pattern sc], Some [sc]))
           (Calendar.date 2020 1 1)
           {| tr_start := Calendar.date 2019 1 1;
              tr_end := Calendar.date 2019 1 2 |}
           {| kw_wavelength := Some (WRange 150 200);
              kw_satellitenumber := Some 17;
              kw_level := Some (LStr "1b") |});
    vm_compute; reflexivity.
Defined.

Lemma concat_map_length {A B C} (f : A -> list B) (g : A -> list C) (l : list A) :
  (forall a, length (f a) = length (g a)) ->
  length (concat (map f l)) = length (concat (map g l)).
Proof.
  intros H. induction l as [| a l IH]; cbn; [reflexivity |].
  rewrite !length_app, H, IH. reflexivity.
Qed.

(** X8.  If every listing returns as many metadata entries as URLs, so
    does [SUVIClient._get_url_for_timerange]. *)
Theorem SUVI_get_url_keeps_urls_and_metadata_aligned
    {Meta : Type}
    (filelist : Scraper -> TimeRange -> list string * option (list Meta))
    (now : Z) (timerange : TimeRange) (kwargs : Kwargs)
    (urls : list string) (urlsmeta : list Meta) :
  (forall sc url urlmeta,
      filelist sc timerange = (url, Some urlmeta) ->
      length url = length urlmeta) ->
  SUVIClient._get_url_for_timerange filelist now timerange kwargs
  = Ok (urls, urlsmeta) ->
  length urls = length urlsmeta.
Proof.
  intros Hlist Hres.
  destruct (wavelength_unsupported kwargs) eqn:Hw;
    [| destruct (start_not_operational now timerange) eqn:Hop;
       [| destruct (satellitenumber_below_16 kwargs) eqn:Hsat;
          [| destruct (level_unsupported kwargs) eqn:Hlevel]]];
    try (exfalso;
         assert (Hraise : SUVIClient._get_url_for_timerange filelist now
                            timerange kwargs = Raise ValueError)
           by (apply SUVI_raises_in_check_inputs;
               rewrite check_inputs_spec, ?Hw, ?Hop, ?Hsat, ?Hlevel;
               reflexivity);
         congruence).
  destruct (SUVI_get_url_composition filelist now timerange kwargs
              Hw Hop Hsat Hlevel) as (scrapers & _ & Heq).
  rewrite Heq in Hres. injection Hres as <- <-.
  apply concat_map_length. intros sc. unfold kept_urls, kept_meta.
  destruct (filelist sc timerange) as [url [urlmeta |]] eqn:Hl; cbn [fst snd];
    [apply (Hlist sc), Hl | reflexivity].
Qed.

Lemma SUVI_get_url_keeps_urls_and_metadata_aligned_witness :
  length
    [ suvi_l2_url 16 171 171; suvi_l2_url 16 195 195 ]
  = length
      [ {| sc_pattern := SUVIClient.base_url ++
             "l{level}/data/suvi-l{level}-ci{wave:03}/%Y/%m/%d/dr_suvi-l{level}-ci{wave:03}_g{goes_number}_s%Y%m%dT%H%M%SZ_.*\.fits";
           sc_extractor := SUVIClient.pattern;
           sc_kwargs := [("level", FStr "2"); ("wave", FInt 171);
                         ("goes_number", FInt 16)] |};
        {| sc_pattern := SUVIClient.base_url ++
             "l{level}/data/suvi-l{level}-ci{wave:03}/%Y/%m/%d/dr_suvi-l{level}-ci{wave:03}_g{goes_number}_s%Y%m%dT%H%M%SZ_.*\.fits";
           sc_extractor := SUVIClient.pattern;
           sc_kwargs := [("level", FStr "2"); ("wave", FInt 195);
                         ("goes_number", FInt 16)] |} ].
Proof.
  apply (SUVI_get_url_keeps_urls_and_metadata_aligned
           (fun sc _ => (match Scraper_rendered sc with
                         | Ok url => [url]
                         | Raise _ => [""]
                         end, Some [sc]))
           (Calendar.date 2020 1 1)
           {| tr_start := Calendar.date 2019 1 1;
              tr_end := Calendar.date 2019 1 2 |}
           {| kw_wavelength := Some (WRange 150 200);
              kw_satellitenumber := None;
              kw_level := None |}).
  - intros sc url urlmeta H. injection H as <- <-.
    destruct (Scraper_rendered sc); reflexivity.
  - vm_compute. reflexivity.
Defined.

(** ** What the checks of [SUVIClient._get_url_for_timerange] ensure *)

Lemma compress_sublist {A} (data : list A) (selectors : list bool) :
  compress data selectors `sublist_of` data.
Proof.
  revert selectors.
  induction data as [| d data IH]; intros [| [] selectors]; cbn;
    try apply sublist_nil_l.
  - apply sublist_skip, IH.
  - apply sublist_cons, IH.
Qed.

Lemma singleton_sublist {A} (x : A) (l : list A) :
  In x l -> [x] `sublist_of` l.
Proof.
  induction l as [| a l IH]; intros Hin; [contradiction |].
  destruct Hin as [-> | Hin].
  - apply sublist_skip, sublist_nil_l.
  - apply sublist_cons, IH, Hin.
Qed.

Lemma compress_nonempty {A} (f : A -> bool) (l : list A) :
  existsb f l = true -> compress l (map f l) <> [].
Proof.
  induction l as [| a l IH]; cbn; [discriminate |].
  destruct (f a); cbn; [discriminate | exact IH].
Qed.

Lemma int_of_Q_inject_Z (z : Z) : int_of_Q (inject_Z z) = z.
Proof. unfold int_of_Q, inject_Z. cbn. apply Z.quot_1_r. Qed.

Lemma map_int_of_Q_inject_Z (l : list Z) : map int_of_Q (map inject_Z l) = l.
Proof.
  induction l as [| z l IH]; cbn [map]; [reflexivity |].
  rewrite int_of_Q_inject_Z, IH. reflexivity.
Qed.

(** X9.  When the checks before the loop pass, the wavelengths to search
    are a non-empty sublist of 94, 131, 171, 195, 284, 304 (so they are
    increasing and without repetition), the satellite number is at least
    16, and is 16 when none is given, and the level is "2" or "1b". *)
Theorem SUVI_checked_inputs_are_supported
    (now : Z) (timerange : TimeRange) (kwargs : Kwargs)
    (waves : list Z) (satellitenumber : Z) (level : string) :
  SUVIClient.check_inputs now timerange kwargs
  = Ok (waves, satellitenumber, level) ->
  waves `sublist_of` SUVIClient.supported_waves
  /\ waves <> []
  /\ 16 <= satellitenumber
  /\ (kw_satellitenumber kwargs = None -> satellitenumber = 16)
  /\ (level = "2" \/ level = "1b").
Proof.
  rewrite check_inputs_spec.
  destruct (wavelength_unsupported kwargs) eqn:Hw; [discriminate |].
  destruct (start_not_operational now timerange); [discriminate |].
  destruct (satellitenumber_below_16 kwargs) eqn:Hsat; [discriminate |].
  destruct (level_unsupported kwargs) eqn:Hlevel; [discriminate |].
  intros H. injection H as <- <- <-.
  split; [| split; [| split; [| split]]].
  - unfold wavelength_unsupported in Hw. unfold selected_wavelength.
    destruct (kw_wavelength kwargs) as [[q | wavemin wavemax] |].
    + apply negb_false_iff in Hw. unfold Z_in in Hw.
      apply existsb_exists in Hw. destruct Hw as (w & Hin & Heq).
      apply Z.eqb_eq in Heq. cbn [map]. rewrite Heq.
      apply singleton_sublist, Hin.
    + rewrite map_int_of_Q_inject_Z. apply compress_sublist.
    + rewrite map_int_of_Q_inject_Z. reflexivity.
  - unfold wavelength_unsupported in Hw. unfold selected_wavelength.
    destruct (kw_wavelength kwargs) as [[q | wavemin wavemax] |].
    + discriminate.
    + rewrite map_int_of_Q_inject_Z. apply negb_false_iff in Hw.
      apply (compress_nonempty _ _ Hw).
    + discriminate.
  - unfold satellitenumber_below_16 in Hsat. unfold selected_satellitenumber.
    destruct (kw_satellitenumber kwargs) as [n |]; lia.
  - unfold selected_satellitenumber. intros ->. reflexivity.
  - unfold level_unsupported in Hlevel. apply negb_false_iff in Hlevel.
    apply str_in_In in Hlevel. cbn in Hlevel.
    destruct Hlevel as [<- | [<- | []]]; auto.
Qed.

Lemma SUVI_checked_inputs_are_supported_witness :
  [131; 171; 195] `sublist_of` SUVIClient.supported_waves
  /\ [131; 171; 195] <> []
  /\ 16 <= 16
  /\ (kw_satellitenumber
        {| kw_wavelength := Some (WRange (1309 # 10) 200);
           kw_satellitenumber := None;
           kw_level := Some (LInt 2) |} = None -> 16 = 16)
  /\ ("2" = "2" \/ "2" = "1b").
Proof.
  apply (SUVI_checked_inputs_are_supported
           (Calendar.date 2020 1 1)
           {| tr_start := Calendar.date 2019 1 1;
              tr_end := Calendar.date 2019 1 2 |}
           {| kw_wavelength := Some (WRange (1309 # 10) 200);
              kw_satellitenumber := None;
              kw_level := Some (LInt 2) |}).
  vm_compute. reflexivity.
Defined.

(** X10.  For a supported level and a supported wavelength the scraper
    of an iteration does not depend on the search pattern that an
    earlier iteration left in the variable [search_pattern], and the
    iteration finds the variable bound. *)
Theorem SUVI_scraper_ignores_earlier_iterations
    (level : string) (satellitenumber wave : Z)
    (earlier earlier' : option string) :
  str_in level SUVIClient.supported_levels = true ->
  Z_in wave SUVIClient.supported_waves = true ->
  SUVIClient.scraper_for level satellitenumber wave earlier
  = SUVIClient.scraper_for level satellitenumber wave earlier'
  /\ exists sc,
       SUVIClient.scraper_for level satellitenumber wave earlier = Ok sc
       /\ PyFormat.lookup (sc_kwargs sc) "wave" = Ok (FInt wave)
       /\ PyFormat.lookup (sc_kwargs sc) "goes_number"
          = Ok (FInt satellitenumber)
       /\ PyFormat.lookup (sc_kwargs sc) "level" = Ok (FStr level).
Proof.
  intros Hlevel Hwave.
  destruct (scraper_for_bound level satellitenumber wave earlier Hlevel Hwave)
    as (sc & Hsc & Hfor).
  destruct (scraper_for_bound level satellitenumber wave earlier' Hlevel Hwave)
    as (sc' & Hsc' & Hfor').
  rewrite Hfor, Hfor'. split; [congruence |].
  exists sc. split; [reflexivity |].
  unfold suvi_scraper, SUVIClient.scraper_for in Hsc.
  destruct (SUVIClient.assign_search_pattern level wave None) as [sp |];
    [| discriminate Hsc].
  injection Hsc as <-. unfold SUVIClient.make_scraper.
  destruct (negb _); repeat split; reflexivity.
Qed.

Lemma SUVI_scraper_ignores_earlier_iterations_witness :
  SUVIClient.scraper_for "1b" 16 304 (Some "stale")
  = SUVIClient.scraper_for "1b" 16 304 None
  /\ exists sc,
       SUVIClient.scraper_for "1b" 16 304 (Some "stale") = Ok sc
       /\ PyFormat.lookup (sc_kwargs sc) "wave" = Ok (FInt 304)
       /\ PyFormat.lookup (sc_kwargs sc) "goes_number" = Ok (FInt 16)
       /\ PyFormat.lookup (sc_kwargs sc) "level" = Ok (FStr "1b").
Proof.
  apply SUVI_scraper_ignores_earlier_iterations; reflexivity.
Defined.

(** ** Equivalent keyword arguments *)

Lemma SUVI_raises_on_unsupported_level
    {Meta : Type}
    (filelist : Scraper -> TimeRange -> list string * option (list Meta))
    (now : Z) (timerange : TimeRange) (kwargs : Kwargs) :
  level_unsupported kwargs = true ->
  SUVIClient._get_url_for_timerange filelist now timerange kwargs
  = Raise ValueError.
Proof.
  intros H. apply SUVI_raises_in_check_inputs.
  rewrite check_inputs_spec, H.
  destruct (wavelength_unsupported kwargs),
    (start_not_operational now timerange),
    (satellitenumber_below_16 kwargs); reflexivity.
Qed.

(** X11.  The level is matched as a string.  The number 2, the string
    "2" and no level at all give the same result, for every other
    argument.  No other spelling is accepted: the level "1B" and the
    number 1 raise [ValueError]. *)
Theorem SUVI_level_is_matched_as_a_string
    {Meta : Type}
    (filelist : Scraper -> TimeRange -> list string * option (list Meta))
    (now : Z) (timerange : TimeRange)
    (wavelength : option WavelengthArg) (satellitenumber : option Z) :
  SUVIClient._get_url_for_timerange filelist now timerange
    {| kw_wavelength := wavelength; kw_satellitenumber := satellitenumber;
       kw_level := Some (LInt 2) |}
  = SUVIClient._get_url_for_timerange filelist now timerange
      {| kw_wavelength := wavelength; kw_satellitenumber := satellitenumber;
         kw_level := None |}
  /\ SUVIClient._get_url_for_timerange filelist now timerange
       {| kw_wavelength := wavelength; kw_satellitenumber := satellitenumber;
          kw_level := Some (LStr "2") |}
     = SUVIClient._get_url_for_timerange filelist now timerange
         {| kw_wavelength := wavelength; kw_satellitenumber := satellitenumber;
            kw_level := None |}
  /\ SUVIClient._get_url_for_timerange filelist now timerange
       {| kw_wavelength := wavelength; kw_satellitenumber := satellitenumber;
          kw_level := Some (LStr "1B") |}
     = Raise ValueError
  /\ SUVIClient._get_url_for_timerange filelist now timerange
       {| kw_wavelength := wavelength; kw_satellitenumber := satellitenumber;
          kw_level := Some (LInt 1) |}
     = Raise ValueError.
Proof.
  split; [| split; [| split]].
  - unfold SUVIClient._get_url_for_timerange. rewrite !check_inputs_spec.
    reflexivity.
  - unfold SUVIClient._get_url_for_timerange. rewrite !check_inputs_spec.
    reflexivity.
  - apply SUVI_raises_on_unsupported_level. reflexivity.
  - apply SUVI_raises_on_unsupported_level. reflexivity.
Qed.

(** X12.  Giving the satellite number 16 is the same as giving none, for
    every other argument: the satellite for the start of the range is
    looked up in both cases. *)
Theorem SUVI_satellitenumber_16_is_the_default
    {Meta : Type}
    (filelist : Scraper -> TimeRange -> list string * option (list Meta))
    (now : Z) (timerange : TimeRange)
    (wavelength : option WavelengthArg) (level : option LevelArg) :
  SUVIClient._get_url_for_timerange filelist now timerange
    {| kw_wavelength := wavelength; kw_satellitenumber := Some 16;
       kw_level := level |}
  = SUVIClient._get_url_for_timerange filelist now timerange
      {| kw_wavelength := wavelength; kw_satellitenumber := None;
         kw_level := level |}.
Proof.
  unfold SUVIClient._get_url_for_timerange. rewrite !check_inputs_spec.
  reflexivity.
Qed.

Lemma Qle_bool_trans (a b c : Q) :
  Qle_bool a b = true -> Qle_bool b c = true -> Qle_bool a c = true.
Proof.
  rewrite !Qle_bool_iff. apply Qle_trans.
Qed.

Lemma Qle_bool_inject_Z (a b : Z) :
  (a <= b)%Z -> Qle_bool (inject_Z a) (inject_Z b) = true.
Proof. intros H. apply Qle_bool_iff. rewrite <- Zle_Qle. exact H. Qed.

Lemma range_covers_supported_waves (wavemin wavemax : Q) :
  Qle_bool wavemin 94 = true -> Qle_bool 304 wavemax = true ->
  map (fun this_wave : Z =>
         Qle_bool wavemin (inject_Z this_wave)
         && Qle_bool (inject_Z this_wave) wavemax)
      SUVIClient.supported_waves
  = [true; true; true; true; true; true].
Proof.
  intros Hlo Hhi.
  assert (H : forall w : Z,
             (94 <= w <= 304)%Z ->
             Qle_bool wavemin (inject_Z w) && Qle_bool (inject_Z w) wavemax
             = true).
  { intros w [H1 H2]. apply andb_true_iff. split.
    - apply (Qle_bool_trans _ 94); [exact Hlo |].
      apply (Qle_bool_inject_Z 94 w H1).
    - apply (Qle_bool_trans _ 304); [| exact Hhi].
      apply (Qle_bool_inject_Z w 304 H2). }
  unfold SUVIClient.supported_waves. cbn [map].
  rewrite !H by lia. reflexivity.
Qed.

(** X13.  A wavelength [Quantity] is used through its integer part only:
    it gives the same result as that integer.  A wavelength range that
    covers 94 to 304 gives the same result as no wavelength.  A range
    whose upper end is below its lower end raises [ValueError]. *)
Theorem SUVI_wavelength_is_used_through_the_supported_bands
    {Meta : Type}
    (filelist : Scraper -> TimeRange -> list string * option (list Meta))
    (now : Z) (timerange : TimeRange)
    (satellitenumber : option Z) (level : option LevelArg) :
  (forall q,
      SUVIClient._get_url_for_timerange filelist now timerange
        {| kw_wavelength := Some (WQuantity q);
           kw_satellitenumber := satellitenumber; kw_level := level |}
      = SUVIClient._get_url_for_timerange filelist now timerange
          {| kw_wavelength := Some (WQuantity (inject_Z (int_of_Q q)));
             kw_satellitenumber := satellitenumber; kw_level := level |})
  /\ (forall wavemin wavemax,
         Qle_bool wavemin 94 = true -> Qle_bool 304 wavemax = true ->
         SUVIClient._get_url_for_timerange filelist now timerange
           {| kw_wavelength := Some (WRange wavemin wavemax);
              kw_satellitenumber := satellitenumber; kw_level := level |}
         = SUVIClient._get_url_for_timerange filelist now timerange
             {| kw_wavelength := None;
                kw_satellitenumber := satellitenumber; kw_level := level |})
  /\ (forall wavemin wavemax,
         Qle_bool wavemin wavemax = false ->
         SUVIClient._get_url_for_timerange filelist now timerange
           {| kw_wavelength := Some (WRange wavemin wavemax);
              kw_satellitenumber := satellitenumber; kw_level := level |}
         = Raise ValueError).
Proof.
  split; [| split].
  - intros q. unfold SUVIClient._get_url_for_timerange.
    rewrite !check_inputs_spec.
    unfold wavelength_unsupported, selected_wavelength. cbn [kw_wavelength map].
    rewrite int_of_Q_inject_Z. reflexivity.
  - intros wavemin wavemax Hlo Hhi. unfold SUVIClient._get_url_for_timerange.
    rewrite !check_inputs_spec.
    unfold wavelength_unsupported, selected_wavelength. cbn [kw_wavelength].
    rewrite <- any_map. rewrite (range_covers_supported_waves _ _ Hlo Hhi).
    reflexivity.
  - intros wavemin wavemax Hinv. apply SUVI_raises_in_check_inputs.
    rewrite check_inputs_spec.
    assert (Hw : wavelength_unsupported
                   {| kw_wavelength := Some (WRange wavemin wavemax);
                      kw_satellitenumber := satellitenumber;
                      kw_level := level |} = true).
    { unfold wavelength_unsupported. cbn [kw_wavelength].
      apply negb_true_iff, not_true_is_false. intros H.
      apply existsb_exists in H. destruct H as (w & _ & Hin).
      apply andb_true_iff in Hin. destruct Hin as [H1 H2].
      rewrite (Qle_bool_trans _ _ _ H1 H2) in Hinv. discriminate Hinv. }
    rewrite Hw. reflexivity.
Qed.

Lemma SUVI_wavelength_is_used_through_the_supported_bands_witness :
  SUVIClient._get_url_for_timerange echo_filelist (Calendar.date 2020 1 1)
    {| tr_start := Calendar.date 2019 1 1; tr_end := Calendar.date 2019 1 2 |}
    {| kw_wavelength := Some (WRange 0 1000);
       kw_satellitenumber := None; kw_level := None |}
  = SUVIClient._get_url_for_timerange echo_filelist (Calendar.date 2020 1 1)
      {| tr_start := Calendar.date 2019 1 1; tr_end := Calendar.date 2019 1 2 |}
      {| kw_wavelength := None;
         kw_satellitenumber := None; kw_level := None |}
  /\ SUVIClient._get_url_for_timerange echo_filelist (Calendar.date 2020 1 1)
       {| tr_start := Calendar.date 2019 1 1; tr_end := Calendar.date 2019 1 2 |}
       {| kw_wavelength := Some (WRange 200 100);
          kw_satellitenumber := None; kw_level := None |}
     = Raise ValueError.
Proof.
  split.
  - apply (proj1 (proj2 (SUVI_wavelength_is_used_through_the_supported_bands
                           echo_filelist _ _ None None)) 0%Q 1000%Q);
      reflexivity.
  - apply (proj2 (proj2 (SUVI_wavelength_is_used_through_the_supported_bands
                           echo_filelist _ _ None None)) 200%Q 100%Q).
    reflexivity.
Defined.

(** ** Registered values and the capability checks *)

Lemma registered_instrument_lower
    (table : list (AttrType * list (string * string)))
    (names : list string) (name : string) :
  map PyStr.lower (registered_names table TInstrument) = names ->
  name_registered table TInstrument name = true ->
  In (PyStr.lower name) names.
Proof.
  intros <- H. unfold name_registered in H. apply str_in_In, H.
Qed.

(** X14.  Each client accepts the Instrument names it registers, in any
    letter case, in a query with a Time attribute ([EVEClient] with a
    registered Level as well).  [GBMClient] registers values for Physobs
    too, but rejects every query that holds a Physobs attribute. *)
Theorem registered_instruments_are_accepted (name : string) (t0 t1 : Z) :
  (name_registered EVEClient.register_values TInstrument name = true ->
   forall level,
     name_registered EVEClient.register_values TLevel level = true ->
     EVEClient._can_handle_query
       [Time t0 t1; Instrument name; Level (VStr level)] = Ok true)
  /\ (name_registered GBMClient.register_values TInstrument name = true ->
      GBMClient._can_handle_query [Time t0 t1; Instrument name] = true)
  /\ (name_registered XRSClient.register_values TInstrument name = true ->
      XRSClient._can_handle_query [Time t0 t1; Instrument name] = true)
  /\ (name_registered SUVIClient.register_values TInstrument name = true ->
      SUVIClient._can_handle_query [Time t0 t1; Instrument name] = true)
  /\ registered_names GBMClient.register_values TPhysobs <> []
  /\ (forall q1 q2 value,
         GBMClient._can_handle_query (q1 ++ Physobs value :: q2) = false).
Proof.
  split; [| split; [| split; [| split; [| split]]]].
  - intros Hname level Hlevel.
    apply (registered_instrument_lower EVEClient.register_values
             ["eve"] _ eq_refl) in Hname.
    destruct Hname as [Hname | []].
    assert (Hl : PyStr.lower level = "0cs").
    { unfold name_registered in Hlevel. apply str_in_In in Hlevel.
      destruct Hlevel as [H | []]. symmetry. exact H. }
    rewrite EVE_can_handle_query_spec.
    assert (Hc : GenericClient.check_attr_types_in_query
                   [Time t0 t1; Instrument name; Level (VStr level)]
                   EVEClient.required EVEClient.optional = true)
      by (vm_compute; reflexivity).
    rewrite Hc. cbn. rewrite <- Hname, Hl. reflexivity.
  - intros Hname.
    apply (registered_instrument_lower GBMClient.register_values
             ["gbm"] _ eq_refl) in Hname.
    destruct Hname as [Hname | []].
    rewrite GBM_can_handle_query_spec. unfold is_instrument_named. cbn.
    rewrite <- Hname. reflexivity.
  - intros Hname.
    apply (registered_instrument_lower XRSClient.register_values
             ["goes"; "xrs"] _ eq_refl) in Hname.
    rewrite XRS_can_handle_query_spec. unfold is_instrument_named. cbn.
    destruct Hname as [Hname | [Hname | []]]; rewrite <- Hname; reflexivity.
  - intros Hname.
    apply (registered_instrument_lower SUVIClient.register_values
             ["suvi"] _ eq_refl) in Hname.
    destruct Hname as [Hname | []].
    rewrite SUVI_can_handle_query_spec.
    assert (Hc : forallb (type_in (SUVIClient.required ∪ SUVIClient.optional))
                   [Time t0 t1; Instrument name] = true)
      by (vm_compute; reflexivity).
    rewrite Hc. cbn. rewrite <- Hname. reflexivity.
  - vm_compute. discriminate.
  - intros q1 q2 value. apply GBM_rejects_unnamed. reflexivity.
Qed.

Lemma registered_instruments_are_accepted_witness :
  EVEClient._can_handle_query [Time 0 1; Instrument "Eve"; Level (VStr "0Cs")]
  = Ok true
  /\ GBMClient._can_handle_query [Time 0 1; Instrument "gBm"] = true
  /\ XRSClient._can_handle_query [Time 0 1; Instrument "Goes"] = true
  /\ SUVIClient._can_handle_query [Time 0 1; Instrument "suvI"] = true.
Proof.
  split; [| split; [| split]].
  - apply (proj1 (registered_instruments_are_accepted "Eve" 0 1));
      reflexivity.
  - apply (proj1 (proj2 (registered_instruments_are_accepted "gBm" 0 1))).
    reflexivity.
  - apply (proj1 (proj2 (proj2 (registered_instruments_are_accepted "Goes" 0 1)))).
    reflexivity.
  - apply (proj1 (proj2 (proj2 (proj2
             (registered_instruments_are_accepted "suvI" 0 1))))).
    reflexivity.
Defined.

(** ** Attribute values that the capability checks do not read *)

Lemma not_instrument_not_named (names : list string) (x : Attr) :
  attr_type x <> TInstrument -> is_instrument_named names x = false.
Proof.
  intros H. apply not_true_is_false. intros Hn.
  apply H, (is_instrument_named_type _ _ Hn).
Qed.

(** X15.  [XRSClient] and [SUVIClient] read no attribute value but that
    of Instrument: replacing an attribute of another kind by any
    attribute of the same kind, at any place in the query, leaves their
    answers unchanged. *)
Theorem XRS_and_SUVI_read_only_Instrument_values
    (q1 q2 : list Attr) (x x' : Attr) :
  attr_type x = attr_type x' ->
  attr_type x <> TInstrument ->
  XRSClient._can_handle_query (q1 ++ x :: q2)
  = XRSClient._can_handle_query (q1 ++ x' :: q2)
  /\ SUVIClient._can_handle_query (q1 ++ x :: q2)
     = SUVIClient._can_handle_query (q1 ++ x' :: q2).
Proof.
  intros Hty Hni.
  assert (Hni' : attr_type x' <> TInstrument) by (rewrite <- Hty; exact Hni).
  rewrite !XRS_can_handle_query_spec, !SUVI_can_handle_query_spec.
  rewrite !suvi_count_length, !forallb_insert, !existsb_app, !List.filter_app.
  cbn [existsb List.filter].
  rewrite !(not_instrument_not_named _ x Hni),
    !(not_instrument_not_named _ x' Hni').
  unfold named_in, type_in. rewrite Hty. split; reflexivity.
Qed.

Lemma XRS_and_SUVI_read_only_Instrument_values_witness :
  XRSClient._can_handle_query
    [Time 0 1; SatelliteNumber 15; Instrument "goes"]
  = XRSClient._can_handle_query
      [Time 0 1; SatelliteNumber 99; Instrument "goes"]
  /\ SUVIClient._can_handle_query
       [Time 0 1; SatelliteNumber 15; Instrument "goes"]
     = SUVIClient._can_handle_query
         [Time 0 1; SatelliteNumber 99; Instrument "goes"].
Proof.
  apply (XRS_and_SUVI_read_only_Instrument_values
           [Time 0 1] [Instrument "goes"]
           (SatelliteNumber 15) (SatelliteNumber 99)).
  - reflexivity.
  - simpl. discriminate.
Defined.

Lemma SUVI_raises_on_low_satellitenumber
    {Meta : Type}
    (filelist : Scraper -> TimeRange -> list string * option (list Meta))
    (now : Z) (timerange : TimeRange) (kwargs : Kwargs) :
  satellitenumber_below_16 kwargs = true ->
  SUVIClient._get_url_for_timerange filelist now timerange kwargs
  = Raise ValueError.
Proof.
  intros H. apply SUVI_raises_in_check_inputs.
  rewrite check_inputs_spec, H.
  destruct (wavelength_unsupported kwargs),
    (start_not_operational now timerange); reflexivity.
Qed.

(** X16.  [SUVIClient._can_handle_query] accepts Time, Instrument('suvi')
    and a SatelliteNumber or a Level of any value, among them the values
    on which [SUVIClient._get_url_for_timerange] raises [ValueError]: a
    satellite number below 16, and a level whose string is neither "2"
    nor "1b". *)
Theorem SUVI_accepts_values_that_get_url_rejects
    {Meta : Type}
    (filelist : Scraper -> TimeRange -> list string * option (list Meta))
    (now : Z) (timerange : TimeRange) (t0 t1 : Z) :
  (forall n wavelength level,
      SUVIClient._can_handle_query
        [Time t0 t1; Instrument "suvi"; SatelliteNumber n] = true
      /\ (n < 16 ->
          SUVIClient._get_url_for_timerange filelist now timerange
            {| kw_wavelength := wavelength; kw_satellitenumber := Some n;
               kw_level := level |}
          = Raise ValueError))
  /\ (forall s wavelength satellitenumber,
         SUVIClient._can_handle_query
           [Time t0 t1; Instrument "suvi"; Level (VStr s)] = true
         /\ (s <> "2" -> s <> "1b" ->
             SUVIClient._get_url_for_timerange filelist now timerange
               {| kw_wavelength := wavelength;
                  kw_satellitenumber := satellitenumber;
                  kw_level := Some (LStr s) |}
             = Raise ValueError)).
Proof.
  split.
  - intros n wavelength level. split; [vm_compute; reflexivity |].
    intros Hn. apply SUVI_raises_on_low_satellitenumber.
    unfold satellitenumber_below_16. cbn [kw_satellitenumber].
    apply Z.ltb_lt, Hn.
  - intros s wavelength satellitenumber. split; [vm_compute; reflexivity |].
    intros H2 H1b. apply SUVI_raises_on_unsupported_level.
    unfold level_unsupported, SUVIClient.level_str. cbn [kw_level].
    apply negb_true_iff, not_true_is_false. intros H.
    apply str_in_In in H. cbn in H.
    destruct H as [H | [H | []]]; congruence.
Qed.

Lemma SUVI_accepts_values_that_get_url_rejects_witness :
  SUVIClient._get_url_for_timerange echo_filelist (Calendar.date 2020 1 1)
    {| tr_start := Calendar.date 2019 1 1; tr_end := Calendar.date 2019 1 2 |}
    {| kw_wavelength := None; kw_satellitenumber := Some 15;
       kw_level := None |}
  = Raise ValueError
  /\ SUVIClient._get_url_for_timerange echo_filelist (Calendar.date 2020 1 1)
       {| tr_start := Calendar.date 2019 1 1; tr_end := Calendar.date 2019 1 2 |}
       {| kw_wavelength := None; kw_satellitenumber := None;
          kw_level := Some (LStr "3") |}
     = Raise ValueError.
Proof.
  split.
  - apply (proj2 (proj1 (SUVI_accepts_values_that_get_url_rejects
                           echo_filelist (Calendar.date 2020 1 1)
                           {| tr_start := Calendar.date 2019 1 1;
                              tr_end := Calendar.date 2019 1 2 |} 0 1)
                    15 None None)).
    lia.
  - apply (proj2 (proj2 (SUVI_accepts_values_that_get_url_rejects
                           echo_filelist (Calendar.date 2020 1 1)
                           {| tr_start := Calendar.date 2019 1 1;
                              tr_end := Calendar.date 2019 1 2 |} 0 1)
                    "3" None None)); discriminate.
Defined.

(** ** The static metadata *)

Lemma four_inserts_static_metadata
    (k1 k2 k3 k4 v1 v2 v3 v4 : string) :
  k1 <> k2 -> k1 <> k3 -> k1 <> k4 -> k2 <> k3 -> k2 <> k4 -> k3 <> k4 ->
  forall map_ : gmap string string,
    let result := <[k4 := v4]> (<[k3 := v3]> (<[k2 := v2]> (<[k1 := v1]> map_))) in
    result !! k1 = Some v1 /\ result !! k2 = Some v2
    /\ result !! k3 = Some v3 /\ result !! k4 = Some v4
    /\ (forall key, key <> k1 -> key <> k2 -> key <> k3 -> key <> k4 ->
                    result !! key = map_ !! key)
    /\ <[k4 := v4]> (<[k3 := v3]> (<[k2 := v2]> (<[k1 := v1]> result)))
       = result.
Proof.
  intros H12 H13 H14 H23 H24 H34 map_ result. subst result.
  repeat split.
  - by simplify_map_eq.
  - by simplify_map_eq.
  - by simplify_map_eq.
  - by simplify_map_eq.
  - intros key ? ? ? ?. by simplify_map_eq.
  - apply map_eq. intros key.
    destruct (decide (key = k4)) as [-> |]; [by simplify_map_eq |].
    destruct (decide (key = k3)) as [-> |]; [by simplify_map_eq |].
    destruct (decide (key = k2)) as [-> |]; [by simplify_map_eq |].
    destruct (decide (key = k1)) as [-> |]; by simplify_map_eq.
Qed.

(** X17.  The [_makeimap] of each client sets the entries source,
    provider, instrument and physobs to the values of that client,
    overwriting what the map held under these keys, keeps every other
    entry, and is idempotent.  The instrument it records is one the
    client accepts in a query. *)
Theorem makeimap_writes_the_static_metadata :
  writes_static_metadata EVEClient._makeimap "SDO" "LASP" "eve" "irradiance"
  /\ writes_static_metadata GBMClient._makeimap "FERMI" "NASA" "GBM" "flux"
  /\ writes_static_metadata XRSClient._makeimap "nasa" "sdac" "goes" "irradiance"
  /\ writes_static_metadata SUVIClient._makeimap "GOES" "NOAA" "SUVI" "flux"
  /\ (forall (map_ : gmap string string) (t0 t1 : Z),
         (forall instrument,
             EVEClient._makeimap map_ !! "instrument" = Some instrument ->
             EVEClient._can_handle_query
               [Time t0 t1; Instrument instrument; Level (VStr "0CS")]
             = Ok true)
         /\ (forall instrument,
                GBMClient._makeimap map_ !! "instrument" = Some instrument ->
                GBMClient._can_handle_query [Time t0 t1; Instrument instrument]
                = true)
         /\ (forall instrument,
                XRSClient._makeimap map_ !! "instrument" = Some instrument ->
                XRSClient._can_handle_query [Time t0 t1; Instrument instrument]
                = true)
         /\ (forall instrument,
                SUVIClient._makeimap map_ !! "instrument" = Some instrument ->
                SUVIClient._can_handle_query [Time t0 t1; Instrument instrument]
                = true)).
Proof.
  assert (Heve : writes_static_metadata EVEClient._makeimap
                   "SDO" "LASP" "eve" "irradiance").
  { intros map_.
    destruct (four_inserts_static_metadata
                "source" "provider" "instrument" "physobs"
                "SDO" "LASP" "eve" "irradiance"
                ltac:(discriminate) ltac:(discriminate) ltac:(discriminate)
                ltac:(discriminate) ltac:(discriminate) ltac:(discriminate)
                map_) as (H1 & H2 & H3 & H4 & H5 & H6).
    unfold EVEClient._makeimap. repeat split; auto. }
  assert (Hgbm : writes_static_metadata GBMClient._makeimap
                   "FERMI" "NASA" "GBM" "flux").
  { intros map_.
    destruct (four_inserts_static_metadata
                "source" "instrument" "physobs" "provider"
                "FERMI" "GBM" "flux" "NASA"
                ltac:(discriminate) ltac:(discriminate) ltac:(discriminate)
                ltac:(discriminate) ltac:(discriminate) ltac:(discriminate)
                map_) as (H1 & H2 & H3 & H4 & H5 & H6).
    unfold GBMClient._makeimap. repeat split; auto. }
  assert (Hxrs : writes_static_metadata XRSClient._makeimap
                   "nasa" "sdac" "goes" "irradiance").
  { intros map_.
    destruct (four_inserts_static_metadata
                "source" "instrument" "physobs" "provider"
                "nasa" "goes" "irradiance" "sdac"
                ltac:(discriminate) ltac:(discriminate) ltac:(discriminate)
                ltac:(discriminate) ltac:(discriminate) ltac:(discriminate)
                map_) as (H1 & H2 & H3 & H4 & H5 & H6).
    unfold XRSClient._makeimap. repeat split; auto. }
  assert (Hsuvi : writes_static_metadata SUVIClient._makeimap
                    "GOES" "NOAA" "SUVI" "flux").
  { intros map_.
    destruct (four_inserts_static_metadata
                "source" "provider" "instrument" "physobs"
                "GOES" "NOAA" "SUVI" "flux"
                ltac:(discriminate) ltac:(discriminate) ltac:(discriminate)
                ltac:(discriminate) ltac:(discriminate) ltac:(discriminate)
                map_) as (H1 & H2 & H3 & H4 & H5 & H6).
    unfold SUVIClient._makeimap. repeat split; auto. }
  split; [exact Heve |]. split; [exact Hgbm |].
  split; [exact Hxrs |]. split; [exact Hsuvi |].
  intros map_ t0 t1. repeat split; intros instrument Hi.
  - destruct (Heve map_) as (_ & _ & H & _). rewrite H in Hi.
    injection Hi as <-. vm_compute. reflexivity.
  - destruct (Hgbm map_) as (_ & _ & H & _). rewrite H in Hi.
    injection Hi as <-. vm_compute. reflexivity.
  - destruct (Hxrs map_) as (_ & _ & H & _). rewrite H in Hi.
    injection Hi as <-. vm_compute. reflexivity.
  - destruct (Hsuvi map_) as (_ & _ & H & _). rewrite H in Hi.
    injection Hi as <-. vm_compute. reflexivity.
Qed.

Lemma makeimap_writes_the_static_metadata_witness :
  (SUVIClient._makeimap ({["instrument" := "stale"; "extra" := "kept"]})
     !! "extra"
   = ({["instrument" := "stale"; "extra" := "kept"]} : gmap string string)
       !! "extra")
  /\ GBMClient._can_handle_query [Time 0 1; Instrument "GBM"] = true.
Proof.
  split.
  - apply (proj1 (proj2 (proj2 (proj2 (proj2
             (proj1 (proj2 (proj2 (proj2 makeimap_writes_the_static_metadata)))
                _)))))); discriminate.
  - apply (proj1 (proj2 (proj2 (proj2 (proj2 (proj2
             makeimap_writes_the_static_metadata)))
             ∅ 0 1))).
    reflexivity.
Defined.
